(** * quick-translator: a shallow embedding of the translation engine

    The development follows the Python sources
    [translate_gemini.py], [translate_plamo.py] and the credential resolver
    of [translation_benchmark.py].

    - Python [str] values are lists of Unicode code points, so that
      [str.strip] removes exactly the characters Python treats as
      white space (including U+3000, the ideographic space).
    - The result of [json.loads] is a value of [pyval]; the parser itself
      belongs to the Python library and is a parameter ([PyRuntime]).
    - Effects (sub-processes, the temporary payload file, the wall clock,
      standard output) are threaded explicitly through a small
      state-and-exception monad [M]; what the outside world answers is
      read from a [world] record, and everything the program does to it
      is appended to a trace of [event]s. *)

From Stdlib Require Import Ascii String NArith ZArith Lia SpecFloat DecimalString.
From stdpp Require Import base option list gmap.

Set Default Proof Using "Type".

(** ** Python strings *)

Abbreviation pystr := (list N).

Module Str.

Fixpoint bytes_of (s : string) : list N :=
  match s with
  | EmptyString => []
  | String a r => N_of_ascii a :: bytes_of r
  end.

(** Code points of a UTF-8 byte sequence; only used to write the
    string literals of the sources. *)
Fixpoint utf8_decode (bs : list N) : pystr :=
  match bs with
  | [] => []
  | b :: r =>
    if (b <? 128)%N then b :: utf8_decode r
    else if (b <? 224)%N then
      match r with
      | c1 :: r1 => ((b - 192) * 64 + (c1 - 128))%N :: utf8_decode r1
      | _ => []
      end
    else if (b <? 240)%N then
      match r with
      | c1 :: c2 :: r2 =>
        ((b - 224) * 4096 + (c1 - 128) * 64 + (c2 - 128))%N :: utf8_decode r2
      | _ => []
      end
    else
      match r with
      | c1 :: c2 :: c3 :: r3 =>
        ((b - 240) * 262144 + (c1 - 128) * 4096 + (c2 - 128) * 64 + (c3 - 128))%N
          :: utf8_decode r3
      | _ => []
      end
  end.

(** [u "..."] is the Python string written by that literal. *)
Definition u (s : string) : pystr := utf8_decode (bytes_of s).

(** Characters for which CPython's [Py_UNICODE_ISSPACE] holds; these are
    the ones [str.strip()] removes. *)
Definition isspace (c : N) : bool :=
  ((9 <=? c) && (c <=? 13) || (28 <=? c) && (c <=? 32)
   || (c =? 133) || (c =? 160) || (c =? 5760)
   || (8192 <=? c) && (c <=? 8202)
   || (c =? 8232) || (c =? 8233) || (c =? 8239) || (c =? 8287)
   || (c =? 12288))%N.

Fixpoint drop_spaces (s : pystr) : pystr :=
  match s with
  | [] => []
  | c :: r => if isspace c then drop_spaces r else s
  end.

Definition lstrip (s : pystr) : pystr := drop_spaces s.
Definition rstrip (s : pystr) : pystr := rev (drop_spaces (rev s)).
Definition strip (s : pystr) : pystr := rstrip (lstrip s).

(** [bool(s)]: a string is true when it is not empty. *)
Definition nonempty (s : pystr) : bool :=
  match s with [] => false | _ => true end.

(** [s.split(sep)] for a one-character separator. *)
Fixpoint split (sep : N) (s : pystr) : list pystr :=
  match s with
  | [] => [[]]
  | c :: r =>
    if (c =? sep)%N then [] :: split sep r
    else match split sep r with
         | [] => [[c]]
         | p :: ps => (c :: p) :: ps
         end
  end.

(** [sep.join(parts)]. *)
Fixpoint join (sep : pystr) (parts : list pystr) : pystr :=
  match parts with
  | [] => []
  | [p] => p
  | p :: ps => p ++ sep ++ join sep ps
  end.

Fixpoint startswith (p s : pystr) : bool :=
  match p, s with
  | [], _ => true
  | a :: p', b :: s' => (a =? b)%N && startswith p' s'
  | _ :: _, [] => false
  end.

(** [s.replace(old, new)] for a non-empty [old]: occurrences are found
    from the left and do not overlap; [skip] counts the characters of
    the current occurrence still to be passed over. *)
Fixpoint replace_from (old new : pystr) (skip : nat) (s : pystr) : pystr :=
  match s with
  | [] => []
  | c :: r =>
    match skip with
    | S k => replace_from old new k r
    | O =>
      if startswith old s
      then new ++ replace_from old new (pred (length old)) r
      else c :: replace_from old new O r
    end
  end.

Definition replace (old new s : pystr) : pystr := replace_from old new O s.

(** [p in s] on strings: substring test. *)
Fixpoint contains (p s : pystr) : bool :=
  startswith p s ||
  match s with
  | [] => false
  | _ :: s' => contains p s'
  end.

(** [str(n)] for an [int]. *)
Definition of_Z (z : Z) : pystr :=
  bytes_of (NilZero.string_of_int (Z.to_int z)).

Definition slash : N := 47.

(** The one-character string holding a line feed. *)
Definition nl : pystr := [10%N].

(** [os.path.basename]: what follows the last slash. *)
Definition basename (p : pystr) : pystr :=
  List.last (split slash p) [].

(** [os.path.join(a, b)] (POSIX). *)
Definition path_join (a b : pystr) : pystr :=
  match b with
  | c :: _ =>
    if (c =? slash)%N then b
    else match a with
         | [] => b
         | _ => if (List.last a 0 =? slash)%N then a ++ b else a ++ [slash] ++ b
         end
  | [] =>
    match a with
    | [] => []
    | _ => if (List.last a 0 =? slash)%N then a else a ++ [slash]
    end
  end.

End Str.

Import Str.

(** ** Values produced by [json.loads] *)

#[warnings="-register-all"]
Inductive pyval :=
| PNone
| PBool (b : bool)
| PInt (z : Z)
| PFloat (f : spec_float)
| PStr (s : pystr)
| PList (l : list pyval)
| PDict (d : list (pystr * pyval)).

(** Errors raised by the interpreter while the code inspects a parsed
    response of an unexpected shape. *)
Inductive runtime_error :=
| TypeError_not_iterable (v : pyval)             (* [k in v] *)
| TypeError_not_subscriptable (v : pyval)        (* [v[...]] *)
| TypeError_bad_index (v : pyval)                (* [v['key']] on a list or str *)
| KeyError (key : pyval)                         (* missing dictionary key *)
| IndexError (v : pyval)
| AttributeError (v : pyval) (attr : pystr).

(** What the Python runtime supplies and the repository does not define:
    the JSON parser ([None] stands for [json.JSONDecodeError]), the text of
    interpreter errors, [str()] of values other than strings, and the
    [:.2f] rendering of a number of seconds. *)
Record PyRuntime := {
  json_loads : pystr -> option pyval;
  str_runtime_error : runtime_error -> pystr;
  str_nonstring : pyval -> pystr;
  format_2f : Z -> pystr
}.

(** Exceptions, as far as the handlers of the sources tell them apart.
    [TimeoutExpired] is a subclass of [SubprocessError]; every constructor
    is a subclass of [Exception].  Each carries its [str()]. *)
Inductive exn :=
| ValueError (msg : pystr)
| TimeoutExpired (msg : pystr)
| SubprocessError (msg : pystr)
| FileNotFoundError (msg : pystr)
| OtherException (msg : pystr).

Definition str_exn (e : exn) : pystr :=
  match e with
  | ValueError m | TimeoutExpired m | SubprocessError m
  | FileNotFoundError m | OtherException m => m
  end.

Definition is_ValueError (e : exn) : bool :=
  match e with ValueError _ => true | _ => false end.

(** [isinstance(e, subprocess.SubprocessError)]. *)
Definition is_SubprocessError (e : exn) : bool :=
  match e with TimeoutExpired _ | SubprocessError _ => true | _ => false end.

Inductive result (A : Type) :=
| Ok (a : A)
| Raise (e : exn).
Arguments Ok {A} a.
Arguments Raise {A} e.

Module Val.
Section WithRuntime.
Variable rt : PyRuntime.

Definition raise_rt {A} (e : runtime_error) : result A :=
  Raise (OtherException (str_runtime_error rt e)).

(** [bool(v)]. *)
Definition truthy (v : pyval) : bool :=
  match v with
  | PNone => false
  | PBool b => b
  | PInt z => negb (z =? 0)%Z
  | PFloat (S754_zero _) => false
  | PFloat _ => true
  | PStr s => nonempty s
  | PList l => match l with [] => false | _ => true end
  | PDict d => match d with [] => false | _ => true end
  end.

Fixpoint lookup_key (k : pystr) (d : list (pystr * pyval)) : option pyval :=
  match d with
  | [] => None
  | (k', v) :: d' => if decide (k = k') then Some v else lookup_key k d'
  end.

Definition is_str (k : pystr) (v : pyval) : bool :=
  match v with PStr s => bool_decide (s = k) | _ => false end.

(** [k in v] for a string [k]. *)
Definition py_in (k : pystr) (v : pyval) : result bool :=
  match v with
  | PDict d => Ok (bool_decide (is_Some (lookup_key k d)))
  | PList l => Ok (existsb (is_str k) l)
  | PStr s => Ok (contains k s)
  | _ => raise_rt (TypeError_not_iterable v)
  end.

(** [v[k]] for a string [k]. *)
Definition getitem_key (v : pyval) (k : pystr) : result pyval :=
  match v with
  | PDict d =>
    match lookup_key k d with
    | Some x => Ok x
    | None => raise_rt (KeyError (PStr k))
    end
  | PList _ | PStr _ => raise_rt (TypeError_bad_index v)
  | _ => raise_rt (TypeError_not_subscriptable v)
  end.

(** [v[0]].  A dictionary read from JSON has string keys only. *)
Definition getitem_0 (v : pyval) : result pyval :=
  match v with
  | PList (x :: _) => Ok x
  | PList [] => raise_rt (IndexError v)
  | PStr (c :: _) => Ok (PStr [c])
  | PStr [] => raise_rt (IndexError v)
  | PDict _ => raise_rt (KeyError (PInt 0))
  | _ => raise_rt (TypeError_not_subscriptable v)
  end.

(** [v.get(k, dflt)]. *)
Definition get_default (v : pyval) (k : pystr) (dflt : pyval) : result pyval :=
  match v with
  | PDict d => Ok (default dflt (lookup_key k d))
  | _ => raise_rt (AttributeError v (u "get"))
  end.

(** [v.strip()]. *)
Definition py_strip (v : pyval) : result pystr :=
  match v with
  | PStr s => Ok (strip s)
  | _ => raise_rt (AttributeError v (u "strip"))
  end.

(** [str(v)], as an f-string renders [v]. *)
Definition py_str (v : pyval) : pystr :=
  match v with
  | PStr s => s
  | _ => str_nonstring rt v
  end.

End WithRuntime.
End Val.

(** ** The outside world, the program state and the effect monad *)

Open Scope Z_scope.

Record CompletedProcess := {
  returncode : Z;
  stdout : pystr;
  stderr : pystr
}.

(** Kinds of work that take time on the wall clock. *)
Inductive op :=
| OpBuild                       (* building the request payload in memory *)
| OpTempFile                    (* NamedTemporaryFile and json.dump *)
| OpRun (argv : list pystr)     (* subprocess.run of that command *)
| OpUnlink                      (* os.unlink *)
| OpParse.                      (* json.loads and the inspection of its result *)

(** Everything the program reads from its surroundings.  A command line is
    answered by [subprocess_outcome]: either the process completes, or
    [subprocess.run] raises.  [userhome] is what [os.path.expanduser]
    substitutes for the tilde. *)
Record world := {
  environ : gmap (list N) (list N);
  subprocess_outcome : list pystr -> result CompletedProcess;
  tempfile_outcome : result pystr;
  duration : op -> Z;
  userhome : pystr;
  isdir : pystr -> bool;
  isfile : pystr -> bool;
  access_X_OK : pystr -> bool;
  stdin_isatty : bool;
  stdin_read : pystr;
  sys_argv : list pystr
}.

(** Everything the program does to its surroundings.  Clock readings are
    in ticks of an ideal clock. *)
Inductive event :=
| EvRun (argv : list pystr) (input : option pystr) (t0 t1 : Z)
| EvTempFile (payload : pyval) (t0 t1 : Z)
| EvUnlink (path : pystr)
| EvStdout (text : pystr)
| EvStderr (text : pystr).

Record state := {
  now : Z;
  trace : list event
}.

Definition M (A : Type) : Type := world -> state -> result A * state.

Definition ret {A} (a : A) : M A := fun _ s => (Ok a, s).
Definition raise {A} (e : exn) : M A := fun _ s => (Raise e, s).

Definition bind {A B} (m : M A) (k : A -> M B) : M B :=
  fun w s =>
    match m w s with
    | (Ok a, s') => k a w s'
    | (Raise e, s') => (Raise e, s')
    end.

Notation "'let*' x := m 'in' k" := (bind m (fun x => k))
  (at level 10, x name, m at level 100, k at level 200, only parsing).
Notation "'let*' ' p := m 'in' k" := (bind m (fun p => k))
  (at level 10, p pattern, m at level 100, k at level 200, only parsing).

(** A pure computation that may raise. *)
Definition lift {A} (r : result A) : M A := fun _ s => (r, s).

Definition rbind {A B} (r : result A) (k : A -> result B) : result B :=
  match r with
  | Ok a => k a
  | Raise e => Raise e
  end.

Notation "'let?' x := r 'in' k" := (rbind r (fun x => k))
  (at level 10, x name, r at level 100, k at level 200, only parsing).

(** [try: m  except ... as e: h e]; a handler that does not apply
    re-raises. *)
Definition try_except {A} (m : M A) (h : exn -> M A) : M A :=
  fun w s =>
    match m w s with
    | (Ok a, s') => (Ok a, s')
    | (Raise e, s') => h e w s'
    end.

(** [try: m  finally: fin], for a [fin] that does not raise. *)
Definition try_finally {A} (m : M A) (fin : M unit) : M A :=
  fun w s =>
    match m w s with
    | (r, s') => (r, snd (fin w s'))
    end.

Definition ask : M world := fun w s => (Ok w, s).

Definition log (ev : event) : M unit :=
  fun _ s => (Ok tt, {| now := now s; trace := trace s ++ [ev] |}).

(** [time.time()]. *)
Definition time_time : M Z := fun _ s => (Ok (now s), s).

Definition tick (o : op) : M unit :=
  fun w s => (Ok tt, {| now := now s + duration w o; trace := trace s |}).

(** [subprocess.run(argv, capture_output=True, text=True, ...)]; the
    event records when the call started and when it came back. *)
Definition subprocess_run (argv : list pystr) (input : option pystr)
  : M CompletedProcess :=
  fun w s =>
    let t1 := now s + duration w (OpRun argv) in
    (subprocess_outcome w argv,
     {| now := t1; trace := trace s ++ [EvRun argv input (now s) t1] |}).

(** [subprocess.run(argv, input=..., check=True)]: a non-zero exit status
    is turned into [CalledProcessError], a [SubprocessError]. *)
Definition subprocess_run_check (argv : list pystr) (input : option pystr)
  : M CompletedProcess :=
  let* r := subprocess_run argv input in
  if decide (returncode r = 0) then ret r
  else raise (SubprocessError (u "CalledProcessError")).

(** The [with tempfile.NamedTemporaryFile(...)] block: creates the file,
    dumps the payload and yields the file's name. *)
Definition write_temp_json (payload : pyval) : M pystr :=
  fun w s =>
    let t1 := now s + duration w OpTempFile in
    (tempfile_outcome w,
     {| now := t1; trace := trace s ++ [EvTempFile payload (now s) t1] |}).

(** [try: os.unlink(path)  except OSError: pass]. *)
Definition os_unlink (path : pystr) : M unit :=
  let* _ := tick OpUnlink in log (EvUnlink path).

Definition print (text : pystr) : M unit := log (EvStdout text).
Definition print_stderr (text : pystr) : M unit := log (EvStderr text).

(** [os.environ.get(name)] and [os.environ.get(name, dflt)]. *)
Definition environ_get (name : pystr) : M (option pystr) :=
  fun w s => (Ok (environ w !! name), s).

Definition environ_get_default (name dflt : pystr) : M pystr :=
  fun w s => (Ok (default dflt (environ w !! name)), s).

Definition init_state (t : Z) : state := {| now := t; trace := [] |}.

(** The exit status of the interpreter: the argument of [sys.exit], or 1
    after an uncaught exception. *)
Definition exit_status (r : result Z) : Z :=
  match r with
  | Ok n => n
  | Raise _ => 1
  end.

(** The input text both [main] functions read: standard input when it is
    not a terminal, else the command-line arguments joined by spaces, else
    the empty string. *)
Definition read_text (w : world) : pystr :=
  if negb (stdin_isatty w) then stdin_read w
  else if decide (1 < length (sys_argv w))%nat
       then join (u " ") (tail (sys_argv w))
       else [].

Definition read_input : M pystr :=
  let* w := ask in
  ret (read_text w).

(** The two helpers every translator class repeats. *)
Definition _escape_for_dialog (text : pystr) : pystr :=
  replace nl (u "\n") (replace [34%N] (u "\" ++ [34%N]) text).

Definition dialog_script (message title : pystr) : pystr :=
  u "display dialog " ++ [34%N] ++ _escape_for_dialog message ++ [34%N]
    ++ u " buttons {" ++ [34%N] ++ u "OK" ++ [34%N]
    ++ u "} default button 1 with title " ++ [34%N] ++ title ++ [34%N].

Definition _show_dialog (message title : pystr) : M unit :=
  try_except
    (let* _ := subprocess_run [u "osascript"; u "-e"; dialog_script message title] None in
     ret tt)
    (fun e =>
       if is_SubprocessError e then print (title ++ u ": " ++ message)
       else raise e).

(** [text.encode('utf-8')].  The codec refuses surrogate code points
    (U+D800 to U+DFFF): it raises [UnicodeEncodeError], a subclass of
    [ValueError], for the first run of them.  The exception is kept as a
    [ValueError] with the message [str(e)] gives. *)
Definition is_surrogate (c : N) : bool := ((55296 <=? c) && (c <=? 57343))%N.

(** One lower-case hexadecimal digit. *)
Definition hex_digit (d : N) : N := (if d <? 10 then 48 + d else 87 + d)%N.

(** The escape [\uXXXX] of a code point below 65536. *)
Definition escape_u (c : N) : pystr :=
  [92; 117; hex_digit (c / 4096); hex_digit (c / 256 mod 16);
   hex_digit (c / 16 mod 16); hex_digit (c mod 16)]%N.

(** The length of the run of surrogates [text] begins with. *)
Fixpoint surrogate_run (text : pystr) : Z :=
  match text with
  | c :: rest => if is_surrogate c then 1 + surrogate_run rest else 0
  | [] => 0
  end.

(** [str(e)] of the error for [len] surrogates found at index [start], the
    first of them being [c]. *)
Definition encode_error_msg (c : N) (start len : Z) : pystr :=
  if decide (len = 1) then
    u "'utf-8' codec can't encode character '" ++ escape_u c
      ++ u "' in position " ++ of_Z start ++ u ": surrogates not allowed"
  else
    u "'utf-8' codec can't encode characters in position " ++ of_Z start
      ++ u "-" ++ of_Z (start + len - 1) ++ u ": surrogates not allowed".

Fixpoint encode_from (pos : Z) (text : pystr) : option exn :=
  match text with
  | [] => None
  | c :: rest =>
    if is_surrogate c
    then Some (ValueError (encode_error_msg c pos (1 + surrogate_run rest)))
    else encode_from (pos + 1) rest
  end.

(** The bytes are kept as the text they encode: that is what the trace
    records as the input of a command. *)
Definition encode_utf8 (text : pystr) : result pystr :=
  match encode_from 0 text with
  | Some e => Raise e
  | None => Ok text
  end.

Definition _copy_to_clipboard (pbcopy : pystr) (text : pystr) : M unit :=
  try_except
    (let* payload := lift (encode_utf8 text) in
     let* _ := subprocess_run_check [pbcopy] (Some payload) in ret tt)
    (fun e => if is_SubprocessError e then ret tt else raise e).

(** ** translate_gemini.py *)

Module Gemini.
Section WithRuntime.
Variable rt : PyRuntime.

Record QuickTranslator := {
  program_start_time : Z;
  api_key : option pystr
}.

Definition _get_api_key : M (option pystr) :=
  try_except
    (let* shell := environ_get_default (u "SHELL") (u "/bin/sh") in
     let* result :=
       subprocess_run [shell; u "-l"; u "-c"; u "echo $GEMINI_API_KEY"] None in
     let api_key := strip (stdout result) in
     ret (if nonempty api_key then Some api_key else None))
    (fun e =>
       if is_SubprocessError e then environ_get (u "GEMINI_API_KEY")
       else raise e).

Definition __init__ : M QuickTranslator :=
  let* t := time_time in
  let* k := _get_api_key in
  ret {| program_start_time := t; api_key := k |}.

Definition system_prompt : pystr :=
  u "You are a translator. Your task:" ++ nl
    ++ u "- Japanese text → Translate to English" ++ nl
    ++ u "- Non-Japanese text → Translate to Japanese" ++ nl
    ++ u "- Output ONLY the translation, no explanations".

(** The binary64 value written [0.1]. *)
Definition float_0_1 : spec_float := S754_finite false 7205759403792794 (-56).

Definition json_data (text : pystr) : pyval :=
  PDict
    [(u "contents",
      PList [PDict [(u "parts",
        PList [PDict [(u "text",
          PStr (system_prompt ++ nl ++ nl ++ u "Text to translate: " ++ text))]])]]);
     (u "generationConfig",
      PDict [(u "temperature", PFloat float_0_1);
             (u "maxOutputTokens", PInt 1000);
             (u "topP", PFloat float_0_1);
             (u "topK", PInt 1)])].

Definition api_url : pystr :=
  u "https://generativelanguage.googleapis.com/v1beta/models/gemini-2.0-flash-lite:generateContent".

(** Credential as a query parameter of the URL. *)
Definition curl_cmd_url_param (key temp_file_path : pystr) : list pystr :=
  [u "curl"; u "-s";
   u "-H"; u "Content-Type: application/json";
   u "-X"; u "POST";
   u "-d"; u "@" ++ temp_file_path;
   api_url ++ u "?key=" ++ key].

(** Credential as a request header. *)
Definition curl_cmd_header (key temp_file_path : pystr) : list pystr :=
  [u "curl"; u "-s";
   u "-H"; u "Content-Type: application/json";
   u "-H"; u "x-goog-api-key: " ++ key;
   u "-X"; u "POST";
   u "-d"; u "@" ++ temp_file_path;
   api_url].

Definition msg_no_key : pystr :=
  u "エラー: 環境変数GEMINI_API_KEYが設定されていません".
Definition msg_no_result : pystr := u "エラー: 翻訳結果が取得できませんでした".
Definition msg_empty : pystr := u "エラー: 翻訳結果が空でした".
Definition msg_timeout : pystr :=
  u "タイムアウトエラー: API呼び出しがタイムアウトしました".
Definition msg_invalid_json (response_data : pystr) : pystr :=
  u "エラー: 無効なJSONレスポンス" ++ nl ++ response_data.
Definition msg_api_error (error_msg : pyval) : pystr :=
  u "APIエラー: " ++ Val.py_str rt error_msg.
Definition unexpected_prefix : pystr := u "予期しないエラー: ".

(** The message of the error raised when both curl calls fail; [result]
    is the completed process the variable [result] holds at that point. *)
Definition curl_error_msg (result : CompletedProcess) : pystr :=
  let error_msg :=
    u "curlエラー: 接続に失敗しました (exit code: "
      ++ of_Z (returncode result) ++ u ")" in
  if nonempty (stderr result)
  then error_msg ++ nl ++ u "詳細: " ++ stderr result
  else error_msg.

(** The condition of the [if] that guards "no translation result",
    evaluated left to right with Python's short-circuit [or]. *)
Definition result_missing (response_json : pyval) : result bool :=
  let? has_candidates := Val.py_in rt (u "candidates") response_json in
  if negb has_candidates then Ok true else
  let? candidates := Val.getitem_key rt response_json (u "candidates") in
  if negb (Val.truthy candidates) then Ok true else
  let? c0 := Val.getitem_0 rt candidates in
  let? has_content := Val.py_in rt (u "content") c0 in
  if negb has_content then Ok true else
  let? content := Val.getitem_key rt c0 (u "content") in
  let? has_parts := Val.py_in rt (u "parts") content in
  if negb has_parts then Ok true else
  let? parts := Val.getitem_key rt content (u "parts") in
  Ok (negb (Val.truthy parts)).

(** Lines 165-184 of [translate_with_api]: from the parsed response to
    the translated text. *)
Definition extract_translation (response_json : pyval) : result pystr :=
  let? has_error := Val.py_in rt (u "error") response_json in
  if has_error then
    let? err := Val.getitem_key rt response_json (u "error") in
    let? error_msg := Val.get_default rt err (u "message") (PStr (u "不明なエラー")) in
    Raise (ValueError (msg_api_error error_msg))
  else
    let? missing := result_missing response_json in
    if missing then Raise (ValueError msg_no_result) else
    let? candidates := Val.getitem_key rt response_json (u "candidates") in
    let? c0 := Val.getitem_0 rt candidates in
    let? content := Val.getitem_key rt c0 (u "content") in
    let? parts := Val.getitem_key rt content (u "parts") in
    let? p0 := Val.getitem_0 rt parts in
    let? translated_text := Val.getitem_key rt p0 (u "text") in
    if negb (Val.truthy translated_text) then Raise (ValueError msg_empty) else
    Val.py_strip rt translated_text.

(** Lines 159-184: parse, then extract. *)
Definition parse_response (response_data : pystr) : result pystr :=
  match json_loads rt response_data with
  | None => Raise (ValueError (msg_invalid_json response_data))
  | Some response_json => extract_translation response_json
  end.

(** The three [except] clauses that close [translate_with_api]. *)
Definition translate_handlers {A} (e : exn) : M A :=
  match e with
  | TimeoutExpired _ =>
    let* end_time := time_time in
    raise (ValueError msg_timeout)
  | SubprocessError _ =>
    let* end_time := time_time in
    raise (ValueError (u "プロセスエラー: " ++ str_exn e))
  | _ =>
    let* end_time := time_time in
    raise (ValueError (unexpected_prefix ++ str_exn e))
  end.

(** The two transport attempts and the clock reading between them
    (lines 123-150); yields the response body and the elapsed time. *)
Definition call_api (key temp_file_path : pystr) (start_time : Z)
  : M (pystr * Z) :=
  let* result := subprocess_run (curl_cmd_header key temp_file_path) None in
  let* end_time := time_time in
  let elapsed_time := end_time - start_time in
  let* result :=
    if decide (returncode result <> 0) then
      let* result := subprocess_run (curl_cmd_url_param key temp_file_path) None in
      if decide (returncode result <> 0)
      then raise (ValueError (curl_error_msg result))
      else ret result
    else ret result in
  ret (stdout result, elapsed_time).

Definition translate_with_api (self : QuickTranslator) (text : pystr)
  : M (pystr * Z) :=
  match api_key self with
  | Some (c :: k) =>
    let key := c :: k in
    let* _ := tick OpBuild in
    let payload := json_data text in
    let* start_time := time_time in
    try_except
      (let* temp_file_path := write_temp_json payload in
       let* '(response_data, elapsed_time) :=
         try_finally (call_api key temp_file_path start_time)
                     (os_unlink temp_file_path) in
       let* _ := tick OpParse in
       let* translated_text := lift (parse_response response_data) in
       ret (translated_text, elapsed_time))
      translate_handlers
  | _ => raise (ValueError msg_no_key)
  end.

Definition run (self : QuickTranslator) (input_text : pystr) : M bool :=
  if negb (nonempty input_text) then
    let* t := time_time in
    let total_time := t - program_start_time self in
    let* _ := _show_dialog (u "テキストが選択されていません") (u "エラー") in
    ret false
  else
    try_except
      (let* '(translated_text, elapsed_time) := translate_with_api self input_text in
       let* _ := _copy_to_clipboard (u "pbcopy") translated_text in
       let* t := time_time in
       let total_time := t - program_start_time self in
       let time_info :=
         nl ++ nl ++ u "翻訳API時間: " ++ format_2f rt elapsed_time ++ u "秒" ++ nl
            ++ u "全体実行時間: " ++ format_2f rt total_time ++ u "秒" in
       let message := translated_text ++ time_info in
       let* _ := _show_dialog message (u "翻訳結果") in
       let* _ := print translated_text in
       ret true)
      (fun e =>
         if is_ValueError e then
           let* _ := _show_dialog (str_exn e) (u "エラー") in
           ret false
         else
           let* _ :=
             _show_dialog (u "予期しないエラーが発生しました: " ++ str_exn e)
                          (u "エラー") in
           ret false).

(** [main], up to the argument of [sys.exit]. *)
Definition main : M Z :=
  let* input_text := read_input in
  let input_text := strip input_text in
  let* translator := __init__ in
  let* success := run translator input_text in
  ret (if success then 0 else 1).

End WithRuntime.
End Gemini.

(** ** translate_plamo.py *)

Module Plamo.
Section WithRuntime.
Variable rt : PyRuntime.

Record PlamoTranslator := {
  program_start_time : Z;
  plamo_path : option pystr;
  path_list : list pystr
}.

(** [os.path.expanduser("~/.local/bin")]: the tilde is replaced by the
    home directory the system reports. *)
Definition local_bin (w : world) : pystr := userhome w ++ u "/.local/bin".

Definition important_paths (w : world) : list pystr :=
  [local_bin w; u "/opt/homebrew/bin"; u "/usr/local/bin"].

(** One turn of the loop: [path_list.insert(0, important_path)] when the
    path is absent from the list and is a directory. *)
Definition ensure_step (w : world) (path_list : list pystr)
           (important_path : pystr) : list pystr :=
  if negb (bool_decide (important_path ∈ path_list)) && isdir w important_path
  then important_path :: path_list
  else path_list.

(** The list is updated in place and returned; the value returned is
    the value of the argument after the loop. *)
Definition _ensure_common_paths (w : world) (path_list : list pystr)
  : list pystr :=
  foldl (ensure_step w) path_list (rev (important_paths w)).

(** [[p.strip() for p in path_output.split(sep) if p.strip()]]. *)
Definition parse_path (sep : N) (path_output : pystr) : list pystr :=
  map strip (List.filter (fun p => nonempty (strip p)) (split sep path_output)).

Definition fish_cmd : pystr :=
  u "printf " ++ [34%N] ++ u "%s\n" ++ [34%N] ++ u " $PATH".
Definition sh_cmd : pystr :=
  u "echo " ++ [34%N] ++ u "$PATH" ++ [34%N].

(** The command line of the login-shell probe. *)
Definition path_probe (shell_path shell_name : pystr) : list pystr :=
  if decide (shell_name = u "fish")
  then [shell_path; u "-l"; u "-i"; u "-c"; fish_cmd]
  else [shell_path; u "-l"; u "-c"; sh_cmd].

Definition _get_path_from_shell (shell_path shell_name : pystr)
  : M (list pystr) :=
  try_except
    (let* result := subprocess_run (path_probe shell_path shell_name) None in
     if decide (returncode result <> 0) then ret [] else
     let path_output := strip (stdout result) in
     if negb (nonempty path_output) then ret [] else
     let path_list :=
       if decide (shell_name = u "fish")
       then parse_path 10 path_output
       else parse_path 58 path_output in
     let original_count := length path_list in
     let* w := ask in
     let path_list := _ensure_common_paths w path_list in
     let* _ :=
       if decide (original_count < length path_list)%nat then
         print_stderr
           (u "デバッグ: "
              ++ of_Z (Z.of_nat (length path_list - original_count))
              ++ u "個の重要なパスを追加しました")
       else ret tt in
     let* _ :=
       print_stderr
         (u "デバッグ: 最終的なPATH数: " ++ of_Z (Z.of_nat (length path_list))) in
     ret path_list)
    (fun e =>
       match e with
       | TimeoutExpired _ | SubprocessError _ | FileNotFoundError _ => ret []
       | _ => raise e
       end).

Definition candidate (path_dir : pystr) : pystr :=
  path_join path_dir (u "plamo-translate").

(** [os.path.isfile(p) and os.access(p, os.X_OK)]. *)
Definition is_executable (w : world) (p : pystr) : bool :=
  isfile w p && access_X_OK w p.

(** The [for] loop of [_search_via_shell]: the first directory whose
    candidate is an executable file. *)
Fixpoint scan (w : world) (dirs : list pystr) : option pystr :=
  match dirs with
  | [] => None
  | path_dir :: rest =>
    if is_executable w (candidate path_dir) then Some (candidate path_dir)
    else scan w rest
  end.

Definition _search_via_shell (shell_name : pystr)
  : M (option pystr * list pystr) :=
  let* shell_path := environ_get_default (u "SHELL") (u "/bin/sh") in
  let* path_list := _get_path_from_shell shell_path shell_name in
  match path_list with
  | [] => ret (None, [])
  | _ =>
    let* w := ask in
    ret (scan w path_list, path_list)
  end.

Definition _find_plamo_translate : M (option pystr * list pystr) :=
  let* shell := environ_get_default (u "SHELL") (u "/bin/sh") in
  let shell_name := basename shell in
  _search_via_shell shell_name.

Definition __init__ : M PlamoTranslator :=
  let* t := time_time in
  let* '(p, l) := _find_plamo_translate in
  ret {| program_start_time := t; plamo_path := p; path_list := l |}.

Definition not_found_msg (shell : pystr) (path_list : list pystr) : pystr :=
  let shell_name := basename shell in
  match path_list with
  | _ :: _ =>
    let path_display := join (u "\n") (map (fun path => u "- " ++ path) path_list) in
    u "plamo-translateが見つかりません\n\n"
      ++ u "シェル: " ++ shell ++ u " (" ++ shell_name ++ u ")\n"
      ++ u "取得した$PATH (" ++ of_Z (Z.of_nat (length path_list)) ++ u "個):\n"
      ++ path_display
  | [] =>
    u "plamo-translateが見つかりません\n\n"
      ++ u "シェル: " ++ shell ++ u " (" ++ shell_name ++ u ")\n"
      ++ u "$PATHの取得に失敗しました"
  end.

Definition _show_plamo_not_found_error (path_list : list pystr) : M unit :=
  let* shell := environ_get_default (u "SHELL") (u "unknown") in
  let error_msg := not_found_msg shell path_list in
  let* _ := _show_dialog error_msg (u "エラー") in
  let console_msg := replace (u "\n") nl error_msg in
  print_stderr (u "エラー: " ++ console_msg).

Definition msg_not_found : pystr := u "plamo-translateが見つかりません".
Definition msg_empty : pystr := u "エラー: 翻訳結果が空でした".
Definition msg_timeout : pystr :=
  u "タイムアウトエラー: plamo-translateの実行がタイムアウトしました".
Definition unexpected_prefix : pystr := u "予期しないエラー: ".

Definition translate_handlers {A} (e : exn) : M A :=
  match e with
  | TimeoutExpired _ =>
    let* end_time := time_time in
    raise (ValueError msg_timeout)
  | SubprocessError _ =>
    let* end_time := time_time in
    raise (ValueError (u "プロセスエラー: " ++ str_exn e))
  | _ =>
    let* end_time := time_time in
    raise (ValueError (unexpected_prefix ++ str_exn e))
  end.

Definition translate_with_plamo_cli (self : PlamoTranslator) (text : pystr)
  : M (pystr * Z) :=
  match plamo_path self with
  | Some (c :: p) =>
    let exe := c :: p in
    let* start_time := time_time in
    try_except
      (let* result := subprocess_run [exe; u "--input"; text] None in
       let* end_time := time_time in
       let elapsed_time := end_time - start_time in
       if decide (returncode result <> 0) then
         raise (ValueError
                  (u "plamo-translateエラー: "
                     ++ (if nonempty (stderr result) then stderr result
                         else stdout result)))
       else
         let translated_text := strip (stdout result) in
         if negb (nonempty translated_text) then raise (ValueError msg_empty)
         else ret (translated_text, elapsed_time))
      translate_handlers
  | _ =>
    let* _ := _show_plamo_not_found_error (path_list self) in
    raise (ValueError msg_not_found)
  end.

Definition path_found (self : PlamoTranslator) : bool :=
  match plamo_path self with
  | Some (_ :: _) => true
  | _ => false
  end.

Definition run (self : PlamoTranslator) (input_text : pystr) : M bool :=
  if negb (nonempty input_text) then
    let* _ := _show_dialog (u "テキストが選択されていません") (u "エラー") in
    ret false
  else if negb (path_found self) then
    let* _ := _show_plamo_not_found_error (path_list self) in
    ret false
  else
    try_except
      (let* '(translated_text, elapsed_time) :=
         translate_with_plamo_cli self input_text in
       let* _ := _copy_to_clipboard (u "/usr/bin/pbcopy") translated_text in
       let* t := time_time in
       let total_time := t - program_start_time self in
       let time_info :=
         nl ++ nl ++ u "plamo-server時間: " ++ format_2f rt elapsed_time ++ u "秒"
            ++ nl ++ u "全体実行時間: " ++ format_2f rt total_time ++ u "秒" in
       let message := translated_text ++ time_info in
       let* _ := _show_dialog message (u "翻訳結果") in
       let* _ := print translated_text in
       ret true)
      (fun e =>
         if is_ValueError e then
           let* _ := _show_dialog (str_exn e) (u "エラー") in
           ret false
         else
           let* _ :=
             _show_dialog (u "予期しないエラーが発生しました: " ++ str_exn e)
                          (u "エラー") in
           ret false).

Definition main : M Z :=
  let* input_text := read_input in
  let input_text := strip input_text in
  let* translator := __init__ in
  let* success := run translator input_text in
  ret (if success then 0 else 1).

End WithRuntime.
End Plamo.

(** ** translation_benchmark.py: the credential resolver *)

Module Benchmark.

Definition _get_api_key (env_name : pystr) : M (option pystr) :=
  try_except
    (let* shell := environ_get_default (u "SHELL") (u "/bin/sh") in
     let* result :=
       subprocess_run [shell; u "-l"; u "-c"; u "echo $" ++ env_name] None in
     let api_key := strip (stdout result) in
     if nonempty api_key then ret (Some api_key) else environ_get env_name)
    (fun _ => environ_get env_name).

Section WithRuntime.
Variable rt : PyRuntime.

(** The two credentials the benchmark resolves when it is built. *)
Record TranslationBenchmark := {
  openai_key : option pystr;
  gemini_key : option pystr
}.

Definition __init__ : M TranslationBenchmark :=
  let* k1 := _get_api_key (u "OPENAI_API_KEY") in
  let* k2 := _get_api_key (u "GEMINI_API_KEY") in
  ret {| openai_key := k1; gemini_key := k2 |}.

(** [json.loads] as a computation.  [json.JSONDecodeError] is a
    [ValueError]; the benchmark never looks at its text. *)
Definition loads (s : pystr) : result pyval :=
  match json_loads rt s with
  | Some v => Ok v
  | None => Raise (ValueError (u "JSONDecodeError"))
  end.

Definition system_content : pystr :=
  u "You are a translator. Your task:" ++ nl
    ++ u "- Japanese text → Translate to English" ++ nl
    ++ u "- Non-Japanese text → Translate to Japanese" ++ nl
    ++ u "- Output ONLY the translation, no explanations".

Definition openai_json_data (text model : pystr) : pyval :=
  PDict
    [(u "model", PStr model);
     (u "messages",
      PList [PDict [(u "role", PStr (u "system"));
                    (u "content", PStr system_content)];
             PDict [(u "role", PStr (u "user")); (u "content", PStr text)]]);
     (u "temperature", PFloat Gemini.float_0_1);
     (u "max_tokens", PInt 1000)].

Definition openai_curl_cmd (key temp_file_path : pystr) : list pystr :=
  [u "curl"; u "-s";
   u "-H"; u "Authorization: Bearer " ++ key;
   u "-H"; u "Content-Type: application/json";
   u "-d"; u "@" ++ temp_file_path;
   u "https://api.openai.com/v1/chat/completions"].

Definition gemini_json_data (text : pystr) : pyval :=
  PDict
    [(u "contents",
      PList [PDict [(u "parts",
        PList [PDict [(u "text",
          PStr (system_content ++ nl ++ nl ++ u "Text to translate: " ++ text))]])]]);
     (u "generationConfig",
      PDict [(u "temperature", PFloat Gemini.float_0_1);
             (u "maxOutputTokens", PInt 1000);
             (u "topP", PFloat Gemini.float_0_1);
             (u "topK", PInt 1)])].

Definition gemini_curl_cmd (key model temp_file_path : pystr) : list pystr :=
  [u "curl"; u "-s";
   u "-H"; u "Content-Type: application/json";
   u "-H"; u "x-goog-api-key: " ++ key;
   u "-X"; u "POST";
   u "-d"; u "@" ++ temp_file_path;
   u "https://generativelanguage.googleapis.com/v1beta/models/" ++ model
     ++ u ":generateContent"].

(** From the parsed OpenAI response to the value returned beside the
    elapsed time (lines 117-124). *)
Definition openai_extract (response_json : pyval) : result (option pystr) :=
  let? has_error := Val.py_in rt (u "error") response_json in
  if has_error then Ok None else
  let? has_choices := Val.py_in rt (u "choices") response_json in
  if negb has_choices then Ok None else
  let? choices := Val.getitem_key rt response_json (u "choices") in
  if negb (Val.truthy choices) then Ok None else
  let? c0 := Val.getitem_0 rt choices in
  let? message := Val.getitem_key rt c0 (u "message") in
  let? content := Val.getitem_key rt message (u "content") in
  let? translated_text := Val.py_strip rt content in
  Ok (Some translated_text).

(** The same for the Gemini response (lines 185-192). *)
Definition gemini_extract (response_json : pyval) : result (option pystr) :=
  let? has_error := Val.py_in rt (u "error") response_json in
  if has_error then Ok None else
  let? has_candidates := Val.py_in rt (u "candidates") response_json in
  if negb has_candidates then Ok None else
  let? candidates := Val.getitem_key rt response_json (u "candidates") in
  if negb (Val.truthy candidates) then Ok None else
  let? c0 := Val.getitem_0 rt candidates in
  let? content := Val.getitem_key rt c0 (u "content") in
  let? parts := Val.getitem_key rt content (u "parts") in
  let? p0 := Val.getitem_0 rt parts in
  let? text := Val.getitem_key rt p0 (u "text") in
  let? translated_text := Val.py_strip rt text in
  Ok (Some translated_text).

(** The body [_translate_openai] and [_translate_gemini] share line for
    line once the credential is known to be present; they differ in the
    payload, the command and the path to the text in the response. *)
Definition hosted_call (payload : pyval) (cmd : pystr -> list pystr)
           (extract : pyval -> result (option pystr)) : M (option pystr * Z) :=
  let* _ := tick OpBuild in
  let* start_time := time_time in
  try_except
    (let* temp_file_path := write_temp_json payload in
     try_finally
       (let* result := subprocess_run (cmd temp_file_path) None in
        let* t := time_time in
        let elapsed_time := t - start_time in
        if decide (returncode result <> 0) then ret (None, elapsed_time) else
        let* _ := tick OpParse in
        let* response_json := lift (loads (stdout result)) in
        let* translated := lift (extract response_json) in
        ret (translated, elapsed_time))
       (os_unlink temp_file_path))
    (fun e =>
       let* t := time_time in
       let elapsed_time := t - start_time in
       ret (None, elapsed_time)).

Definition _translate_openai (self : TranslationBenchmark) (text model : pystr)
  : M (option pystr * Z) :=
  match openai_key self with
  | Some (c :: k) =>
    hosted_call (openai_json_data text model) (openai_curl_cmd (c :: k))
                openai_extract
  | _ => ret (None, 0)
  end.

Definition _translate_gemini (self : TranslationBenchmark) (text model : pystr)
  : M (option pystr * Z) :=
  match gemini_key self with
  | Some (c :: k) =>
    hosted_call (gemini_json_data text) (gemini_curl_cmd (c :: k) model)
                gemini_extract
  | _ => ret (None, 0)
  end.

Definition common_paths (w : world) : list pystr :=
  [userhome w ++ u "/.local/bin/plamo-translate";
   u "/usr/local/bin/plamo-translate";
   u "/opt/homebrew/bin/plamo-translate"].

(** The [for ... break] loop over [common_paths]. *)
Definition first_executable (w : world) (paths : list pystr) : option pystr :=
  List.find (Plamo.is_executable w) paths.

Definition which_cmd (shell : pystr) : list pystr :=
  [shell; u "-l"; u "-c"; u "which plamo-translate"].

(** Lines 207-232: where the benchmark looks for the executable. *)
Definition locate_plamo : M (option pystr) :=
  let* plamo_path :=
    try_except
      (let* shell := environ_get_default (u "SHELL") (u "/bin/sh") in
       let* result := subprocess_run (which_cmd shell) None in
       if decide (returncode result = 0) then ret (Some (strip (stdout result)))
       else ret None)
      (fun _ => ret None) in
  match plamo_path with
  | Some (c :: p) => ret (Some (c :: p))
  | _ =>
    let* w := ask in
    ret (first_executable w (common_paths w))
  end.

Definition _translate_plamo (self : TranslationBenchmark) (text : pystr)
           (server_prestart : bool) : M (option pystr * Z) :=
  let* plamo_path := locate_plamo in
  match plamo_path with
  | Some (c :: p) =>
    let exe := c :: p in
    let* start_time := time_time in
    try_except
      (let* result := subprocess_run [exe; u "--input"; text] None in
       let* t := time_time in
       let elapsed_time := t - start_time in
       if decide (returncode result <> 0) then ret (None, elapsed_time) else
       let translated_text := strip (stdout result) in
       if nonempty translated_text then ret (Some translated_text, elapsed_time)
       else ret (None, elapsed_time))
      (fun e =>
         let* t := time_time in
         let elapsed_time := t - start_time in
         ret (None, elapsed_time))
  | _ => ret (None, 0)
  end.

End WithRuntime.

End Benchmark.

(** ** Concrete scenarios

    A runtime and a family of worlds on which the functions above can be
    run to a value. *)

Module Scenario.

(** [s] between double quotes. *)
Definition q (s : pystr) : pystr := [34%N] ++ s ++ [34%N].

(** A well-formed Gemini response whose text field is [text], and the
    value [json.loads] makes of it. *)
Definition body_with_text (text : pystr) : pystr :=
  u "{" ++ q (u "candidates") ++ u ": [{" ++ q (u "content") ++ u ": {"
    ++ q (u "parts") ++ u ": [{" ++ q (u "text") ++ u ": " ++ q text
    ++ u "}]}}]}".

Definition value_with_text (text : pystr) : pyval :=
  PDict [(u "candidates",
          PList [PDict [(u "content",
            PDict [(u "parts", PList [PDict [(u "text", PStr text)]])])]])].

(** A response carrying the provider's error object. *)
Definition body_api_error : pystr :=
  u "{" ++ q (u "error") ++ u ": {" ++ q (u "message") ++ u ": "
    ++ q (u "Invalid API key") ++ u "}}".

Definition value_api_error : pyval :=
  PDict [(u "error", PDict [(u "message", PStr (u "Invalid API key"))])].

Definition blank : pystr := [32; 12288; 32]%N.

(** [json.loads] on the bodies the scenarios use; every other body of the
    scenarios ("Invalid JSON") is not JSON. *)
Definition table_json_loads (s : pystr) : option pyval :=
  if decide (s = body_with_text blank) then Some (value_with_text blank)
  else if decide (s = body_with_text (u "Translation result"))
  then Some (value_with_text (u "Translation result"))
  else if decide (s = body_api_error) then Some value_api_error
  else None.

Definition rt : PyRuntime := {|
  json_loads := table_json_loads;
  str_runtime_error := fun _ => u "<interpreter error>";
  str_nonstring := fun _ => u "<value>";
  format_2f := fun z => of_Z z ++ u ".00"
|}.

Definition tmp : pystr := u "/tmp/test.json".
Definition key : pystr := u "test-gemini-api-key".

Definition completed (rc : Z) (out err : pystr) : result CompletedProcess :=
  Ok {| returncode := rc; stdout := out; stderr := err |}.

(** A world whose curl answers are [header] and [url_param], whose
    login-shell probes answer [probe], and where every other command
    completes silently. *)
Definition mk_world (env : gmap (list N) (list N))
           (header url_param probe : result CompletedProcess)
           (dur : op -> Z) (dirs execs : list pystr) : world := {|
  environ := env;
  subprocess_outcome := fun argv =>
    if decide (argv = Gemini.curl_cmd_header key tmp) then header
    else if decide (argv = Gemini.curl_cmd_url_param key tmp) then url_param
    else if decide (nth 1 argv [] = u "-l") then probe
    else completed 0 [] [];
  tempfile_outcome := Ok tmp;
  duration := dur;
  userhome := u "/Users/test";
  isdir := fun p => bool_decide (p ∈ dirs);
  isfile := fun p => bool_decide (p ∈ execs);
  access_X_OK := fun p => bool_decide (p ∈ execs);
  stdin_isatty := true;
  stdin_read := [];
  sys_argv := [u "translate_gemini.py"]
|}.

Definition session : Gemini.QuickTranslator :=
  {| Gemini.program_start_time := 0; Gemini.api_key := Some key |}.

Definition durations (o : op) : Z :=
  match o with
  | OpBuild => 7
  | OpTempFile => 1
  | OpRun argv =>
    if decide (argv = Gemini.curl_cmd_header key tmp) then 2
    else if decide (argv = Gemini.curl_cmd_url_param key tmp) then 5
    else 0
  | OpUnlink => 0
  | OpParse => 11
  end.

(** The header call answers with exit status 0 and [body]. *)
Definition world_header_ok (body : pystr) : world :=
  mk_world ∅ (completed 0 body []) (completed 0 [] []) (completed 0 [] [])
           durations [] [].

(** The header call fails; the query-parameter call answers [url_param]. *)
Definition world_fallback (url_param : result CompletedProcess) : world :=
  mk_world ∅ (completed 1 [] (u "Auth error")) url_param (completed 0 [] [])
           durations [] [].

(** A world for the executable locator: [probe] answers the login-shell
    probe, [dirs] are the directories that exist, [execs] the executable
    files. *)
Definition world_paths (probe : result CompletedProcess)
           (dirs execs : list pystr) : world :=
  mk_world ∅ (completed 0 [] []) (completed 0 [] []) probe durations dirs execs.

Definition all_important : list pystr :=
  [u "/Users/test/.local/bin"; u "/opt/homebrew/bin"; u "/usr/local/bin"].

(** The login-shell probe prints an empty line although the process
    environment holds the key. *)
Definition world_empty_probe : world :=
  mk_world {[ u "GEMINI_API_KEY" := u "env-key" ]}
           (completed 0 [] []) (completed 0 [] []) (completed 0 nl [])
           durations [] [].

(** The header call fails after 2 ticks; the query-parameter call
    succeeds after 5 more. *)
Definition world_fallback_ok : world :=
  world_fallback (completed 0 (body_with_text (u "Translation result")) []).

(** Only white space arrives on standard input. *)
Definition world_blank_stdin : world :=
  let base := world_header_ok (body_with_text (u "Translation result")) in
  {| environ := environ base;
     subprocess_outcome := subprocess_outcome base;
     tempfile_outcome := tempfile_outcome base;
     duration := duration base;
     userhome := userhome base;
     isdir := isdir base;
     isfile := isfile base;
     access_X_OK := access_X_OK base;
     stdin_isatty := false;
     stdin_read := [32; 12288; 10]%N;
     sys_argv := sys_argv base |}.

(** The PATH probe exits with status 1 while the executable sits in an
    important directory that exists. *)
Definition world_probe_fails : world :=
  world_paths (completed 1 [] []) [u "/usr/local/bin"]
              [u "/usr/local/bin/plamo-translate"].

Definition plamo_session : Plamo.PlamoTranslator :=
  {| Plamo.program_start_time := 0;
     Plamo.plamo_path := Some (u "/usr/local/bin/plamo-translate");
     Plamo.path_list := [u "/usr/local/bin"; u "/usr/bin"] |}.

(** A world for the local tool: a command whose second word is
    [--input] is answered by [answer] after 4 ticks; every other command
    completes silently. *)
Definition world_plamo (answer : result CompletedProcess) : world := {|
  environ := ∅;
  subprocess_outcome := fun argv =>
    if decide (nth 1 argv [] = u "--input") then answer else completed 0 [] [];
  tempfile_outcome := Ok tmp;
  duration := fun o =>
    match o with
    | OpRun argv => if decide (nth 1 argv [] = u "--input") then 4 else 0
    | _ => 0
    end;
  userhome := u "/Users/test";
  isdir := fun _ => false;
  isfile := fun _ => false;
  access_X_OK := fun _ => false;
  stdin_isatty := true;
  stdin_read := [];
  sys_argv := [u "translate_plamo.py"; u "Hello"]
|}.

Definition plamo_argv : list pystr :=
  [u "/usr/local/bin/plamo-translate"; u "--input"; u "Hello"].

Definition benchmark_session : Benchmark.TranslationBenchmark :=
  {| Benchmark.openai_key := None; Benchmark.gemini_key := Some key |}.

Definition flash_lite : pystr := u "gemini-2.0-flash-lite".

End Scenario.

(** ** Vocabulary of the statements *)

(** [x] stands somewhere before [y] in [l]. *)
Definition before {A} (x y : A) (l : list A) : Prop :=
  exists i j : nat, (i < j)%nat /\ l !! i = Some x /\ l !! j = Some y.

(** How many entries of [l] are [d]. *)
Definition occurrences (d : pystr) (l : list pystr) : nat :=
  length (filter (fun x => x = d) l).

(** The command that shows the "no text selected" dialog. *)
Definition no_text_dialog : list pystr :=
  [u "osascript"; u "-e";
   dialog_script (u "テキストが選択されていません") (u "エラー")].

(** What [print] writes when that dialog cannot be shown. *)
Definition no_text_printed : pystr :=
  u "エラー" ++ u ": " ++ u "テキストが選択されていません".

(** The login-shell PATH probe failed in one of the ways
    [_get_path_from_shell] answers with the empty list: a non-zero exit
    status, a timeout, or an error of the process machinery. *)
Definition probe_failed (o : result CompletedProcess) : Prop :=
  match o with
  | Ok cp => returncode cp <> 0
  | Raise (TimeoutExpired _) | Raise (SubprocessError _)
  | Raise (FileNotFoundError _) => True
  | Raise _ => False
  end.

(** The command line of the credential probe for the variable [name]. *)
Definition key_probe (w : world) (name : pystr) : list pystr :=
  [default (u "/bin/sh") (environ w !! u "SHELL"); u "-l"; u "-c";
   u "echo $" ++ name].

(** The command line of the PATH probe in the world [w]. *)
Definition path_probe_of (w : world) : list pystr :=
  let shell := default (u "/bin/sh") (environ w !! u "SHELL") in
  Plamo.path_probe shell (basename shell).

(** The state after one sub-process call of [argv] was made from [s]. *)
Definition after_run (w : world) (argv : list pystr) (s : state) : state :=
  {| now := now s + duration w (OpRun argv);
     trace := trace s ++ [EvRun argv None (now s)
                            (now s + duration w (OpRun argv))] |}.

(** What a [run] method does when it refuses its input: the only thing
    done from the state [s] is the "no text selected" dialog (with the
    printed line when the dialog process fails), and the method returns
    [False], unless starting the dialog itself raised an error that
    [_show_dialog] does not catch, which then leaves the method. *)
Definition refused (w : world) (s : state) (x : result bool * state) : Prop :=
  (trace (snd x) = trace (after_run w no_text_dialog s)
   \/ trace (snd x)
      = trace (after_run w no_text_dialog s) ++ [EvStdout no_text_printed])
  /\ (fst x = Ok false
      \/ exists e, fst x = Raise e
                   /\ subprocess_outcome w no_text_dialog = Raise e
                   /\ is_SubprocessError e = false).

Ltac run_monad :=
  cbv beta iota zeta delta
    [bind try_except try_finally tick time_time write_temp_json subprocess_run
     subprocess_run_check os_unlink log lift ret raise ask environ_get
     environ_get_default print print_stderr read_input now trace fst snd].

(** [s] is empty or begins with a character that is not white space. *)
Definition starts_clean (s : pystr) : Prop :=
  match s with
  | [] => True
  | c :: _ => isspace c = false
  end.

(** [run_monad] without unfolding the projections of an abstract state. *)
Ltac run_steps :=
  cbv beta iota zeta delta
    [bind try_except try_finally tick time_time write_temp_json subprocess_run
     subprocess_run_check os_unlink log lift ret raise ask environ_get
     environ_get_default print print_stderr read_input];
  cbn [now trace fst snd].

(** * Properties *)

Arguments u : simpl never.
Arguments of_Z : simpl never.
Arguments strip : simpl never.

Example u_ascii : u "abc" = [97; 98; 99]%N.
Proof. reflexivity. Qed.

Example u_kana : u "エラー" = [12456; 12521; 12540]%N.
Proof. reflexivity. Qed.

Example strip_mixed :
  strip ([32; 9; 12288] ++ u "こんにちは" ++ [10; 12288])%N = u "こんにちは".
Proof. reflexivity. Qed.

Example split_colon :
  split 58 (u "/usr/bin::/bin") = [u "/usr/bin"; []; u "/bin"].
Proof. reflexivity. Qed.

Example of_Z_neg : of_Z (-15) = u "-15" /\ of_Z 0 = u "0" /\ of_Z 7 = u "7".
Proof. repeat split; reflexivity. Qed.

Example basename_fish : basename (u "/opt/homebrew/bin/fish") = u "fish".
Proof. reflexivity. Qed.

Example dialog_script_escapes :
  dialog_script (u "He said " ++ [34%N] ++ u "Hello" ++ [34%N] ++ nl ++ u "World")
                (u "翻訳結果")
  = u "display dialog " ++ [34%N] ++ u "He said \" ++ [34%N] ++ u "Hello\"
      ++ [34%N] ++ u "\nWorld" ++ [34%N] ++ u " buttons {" ++ [34%N] ++ u "OK"
      ++ [34%N] ++ u "} default button 1 with title " ++ [34%N] ++ u "翻訳結果"
      ++ [34%N].
Proof. reflexivity. Qed.


Example replace_backslash_n :
  replace (u "\n") nl (u "a\n\nb\") = u "a" ++ nl ++ nl ++ u "b\".
Proof. reflexivity. Qed.

(** ** The executable locator: augmenting the PATH list *)

Section EnsureCommonPaths.
Variable w : world.

Lemma suffix_local_bin_differs (t : pystr) :
  firstn 11 (rev t) <> rev (u "/.local/bin") ->
  Plamo.local_bin w <> t.
Proof.
  intros Hne Heq. apply Hne. rewrite <- Heq. unfold Plamo.local_bin.
  rewrite rev_app_distr.
  change (rev (u "/.local/bin")) with ([110; 105; 98; 47; 108; 97; 99; 111; 108; 46; 47]%N).
  reflexivity.
Qed.

Lemma important_paths_NoDup : NoDup (Plamo.important_paths w).
Proof.
  unfold Plamo.important_paths.
  assert (H1 : Plamo.local_bin w <> u "/opt/homebrew/bin")
    by (apply suffix_local_bin_differs; vm_compute; discriminate).
  assert (H2 : Plamo.local_bin w <> u "/usr/local/bin")
    by (apply suffix_local_bin_differs; vm_compute; discriminate).
  assert (H3 : u "/opt/homebrew/bin" <> u "/usr/local/bin")
    by (vm_compute; discriminate).
  apply NoDup_cons; split.
  { rewrite !not_elem_of_cons. repeat split; auto. apply not_elem_of_nil. }
  apply NoDup_cons; split.
  { rewrite !not_elem_of_cons. repeat split; auto. apply not_elem_of_nil. }
  apply NoDup_singleton.
Qed.

(** The loop over a reversed list of distinct candidates prepends, in the
    order of the list, those that are absent and exist. *)
Lemma ensure_loop_spec (imp l : list pystr) :
  NoDup imp ->
  foldl (Plamo.ensure_step w) l (rev imp)
  = filter (fun p => (p ∉ l) /\ isdir w p = true) imp ++ l.
Proof.
  induction imp as [|x imp IH]; intros Hnd; [reflexivity|].
  apply NoDup_cons in Hnd as [Hx Hnd].
  simpl rev. rewrite foldl_app. simpl. rewrite (IH Hnd).
  unfold Plamo.ensure_step.
  destruct (decide (x ∈ l)) as [Hin|Hnin].
  - rewrite bool_decide_eq_true_2 by (apply elem_of_app; auto). simpl.
    rewrite filter_cons_False by tauto. reflexivity.
  - rewrite bool_decide_eq_false_2.
    2:{ rewrite elem_of_app, list_elem_of_filter. tauto. }
    simpl. destruct (isdir w x) eqn:Hd.
    + rewrite filter_cons_True by auto. reflexivity.
    + rewrite filter_cons_False; [reflexivity|]. intros [_ ?]; congruence.
Qed.

Lemma ensure_common_paths_spec (l : list pystr) :
  Plamo._ensure_common_paths w l
  = filter (fun p => (p ∉ l) /\ isdir w p = true) (Plamo.important_paths w) ++ l.
Proof. apply ensure_loop_spec, important_paths_NoDup. Qed.

Lemma occurrences_app d (l1 l2 : list pystr) :
  occurrences d (l1 ++ l2) = (occurrences d l1 + occurrences d l2)%nat.
Proof. unfold occurrences. rewrite filter_app, length_app. reflexivity. Qed.

Lemma occurrences_absent d (l : list pystr) : d ∉ l -> occurrences d l = 0%nat.
Proof.
  unfold occurrences. induction l as [|x l IH]; intros Hd; [reflexivity|].
  apply not_elem_of_cons in Hd as [Hne Hd].
  rewrite filter_cons_False by congruence. auto.
Qed.

Lemma occurrences_NoDup d (l : list pystr) :
  NoDup l -> d ∈ l -> occurrences d l = 1%nat.
Proof.
  induction l as [|x l IH]; intros Hnd Hin; [by apply elem_of_nil in Hin|].
  apply NoDup_cons in Hnd as [Hx Hnd].
  apply elem_of_cons in Hin as [->|Hin].
  - change (x :: l) with ([x] ++ l). rewrite occurrences_app.
    rewrite (occurrences_absent x l Hx). unfold occurrences.
    rewrite filter_cons_True by reflexivity. reflexivity.
  - unfold occurrences in *. rewrite filter_cons_False; [auto|].
    intros ->. contradiction.
Qed.

End EnsureCommonPaths.

(** C7, as the code has it.  When an important directory [d] exists on
    disk and is missing from the list, [_ensure_common_paths] returns the
    list with a block of directories put in front of it: the important
    directories that were missing and exist, in the order in which the
    fixed set declares them (the earlier-declared end up first).  [d] is
    in that block, so it stands before every original entry, and it
    occurs exactly once in the result. *)
Theorem ensure_common_paths_prepends (w : world) (l : list pystr) (d : pystr) :
  d ∈ Plamo.important_paths w ->
  isdir w d = true ->
  d ∉ l ->
  let added :=
    filter (fun p => (p ∉ l) /\ isdir w p = true) (Plamo.important_paths w) in
  Plamo._ensure_common_paths w l = added ++ l
  /\ d ∈ added
  /\ occurrences d (Plamo._ensure_common_paths w l) = 1%nat.
Proof.
  intros Himp Hdir Hnin added.
  assert (Hd : d ∈ added) by (apply list_elem_of_filter; auto).
  split; [apply ensure_common_paths_spec|]. split; [exact Hd|].
  rewrite ensure_common_paths_spec. fold added.
  rewrite occurrences_app, (occurrences_absent d l Hnin).
  rewrite (occurrences_NoDup d added); [reflexivity| |exact Hd].
  apply NoDup_filter, important_paths_NoDup.
Qed.

Lemma ensure_common_paths_prepends_witness :
  let w := Scenario.world_paths (Scenario.completed 0 [] [])
             [u "/usr/local/bin"; u "/Users/test/.local/bin"] [] in
  let l := [u "/usr/bin"; u "/bin"] in
  Plamo._ensure_common_paths w l
  = [u "/Users/test/.local/bin"; u "/usr/local/bin"; u "/usr/bin"; u "/bin"]
  /\ occurrences (u "/usr/local/bin") (Plamo._ensure_common_paths w l) = 1%nat.
Proof.
  intros w l.
  assert (Himp : u "/usr/local/bin" ∈ Plamo.important_paths w).
  { apply list_elem_of_In. vm_compute. tauto. }
  assert (Hdir : isdir w (u "/usr/local/bin") = true) by (vm_compute; reflexivity).
  assert (Hnin : u "/usr/local/bin" ∉ l).
  { intros H. apply list_elem_of_In in H. vm_compute in H.
    destruct H as [H|[H|[]]]; discriminate H. }
  destruct (ensure_common_paths_prepends w l (u "/usr/local/bin") Himp Hdir Hnin)
    as (_ & _ & Hocc).
  split; [vm_compute; reflexivity | exact Hocc].
Defined.

(** C7, the part of the claim the code does not follow: with every
    important directory missing from the list and present on disk, the
    directory declared last ([/usr/local/bin]) does not come before the one
    declared first ([~/.local/bin]); the declared order is kept. *)
Lemma later_declared_not_first :
  let w := Scenario.world_paths (Scenario.completed 0 [] []) Scenario.all_important [] in
  let first := u "/Users/test/.local/bin" in
  let last := u "/usr/local/bin" in
  let r := Plamo._ensure_common_paths w [u "/usr/bin"; u "/bin"] in
  before first last (Plamo.important_paths w)
  /\ r = [first; u "/opt/homebrew/bin"; last; u "/usr/bin"; u "/bin"]
  /\ ~ before last first r.
Proof.
  intros w first last r.
  assert (Hr : r = [first; u "/opt/homebrew/bin"; last; u "/usr/bin"; u "/bin"])
    by (vm_compute; reflexivity).
  split; [exists 0%nat, 2%nat; repeat split; [lia|vm_compute; reflexivity..]|].
  split; [exact Hr|].
  rewrite Hr. intros (i & j & Hlt & Hi & Hj).
  destruct j as [|j]; [lia|].
  do 5 (destruct j as [|j]; [vm_compute in Hj; discriminate Hj|]).
  vm_compute in Hj. discriminate Hj.
Qed.

(** C8.  A list that already holds every important directory is returned
    as it is: nothing is added, duplicated or moved. *)
Theorem ensure_common_paths_fixpoint (w : world) (l : list pystr) :
  (forall p, p ∈ Plamo.important_paths w -> p ∈ l) ->
  Plamo._ensure_common_paths w l = l.
Proof.
  intros Hall. rewrite ensure_common_paths_spec.
  induction (Plamo.important_paths w) as [|x imp IH]; [reflexivity|].
  rewrite filter_cons_False.
  - apply IH. intros p Hp. apply Hall. by apply elem_of_cons; right.
  - intros [Hx _]. apply Hx, Hall. by apply elem_of_cons; left.
Qed.

Lemma ensure_common_paths_fixpoint_witness :
  let w := Scenario.world_paths (Scenario.completed 0 [] []) Scenario.all_important [] in
  let l := [u "/usr/local/bin"; u "/usr/bin"; u "/opt/homebrew/bin"; u "/bin";
            u "/Users/test/.local/bin"] in
  Plamo._ensure_common_paths w l = l.
Proof.
  intros w l. apply ensure_common_paths_fixpoint.
  intros p Hp. apply list_elem_of_In in Hp. apply list_elem_of_In.
  vm_compute in Hp. vm_compute. tauto.
Defined.

(** ** The Gemini transport: two attempts, one clock reading *)

Section GeminiTransport.
Variable rt : PyRuntime.
Variable w : world.

Lemma variants_differ (key key' p p' : pystr) :
  Gemini.curl_cmd_url_param key' p' <> Gemini.curl_cmd_header key p.
Proof. intros H. apply (f_equal length) in H. discriminate H. Qed.

(** [call_api] in normal form: what it returns and what it leaves
    behind, by the answers of the two commands. *)
Lemma call_api_cases (key p : pystr) (st t : Z) (tr : list event) :
  let H := Gemini.curl_cmd_header key p in
  let U := Gemini.curl_cmd_url_param key p in
  let t1 := t + duration w (OpRun H) in
  let t2 := t1 + duration w (OpRun U) in
  let s1 := {| now := t1; trace := tr ++ [EvRun H None t t1] |} in
  let s2 := {| now := t2;
               trace := (tr ++ [EvRun H None t t1]) ++ [EvRun U None t1 t2] |} in
  Gemini.call_api key p st w {| now := t; trace := tr |}
  = match subprocess_outcome w H with
    | Raise e => (Raise e, s1)
    | Ok a =>
      if decide (returncode a <> 0) then
        match subprocess_outcome w U with
        | Raise e => (Raise e, s2)
        | Ok b =>
          if decide (returncode b <> 0)
          then (Raise (ValueError (Gemini.curl_error_msg b)), s2)
          else (Ok (stdout b, t1 - st), s2)
        end
      else (Ok (stdout a, t1 - st), s1)
    end.
Proof.
  intros H U t1 t2 s1 s2. unfold Gemini.call_api. run_monad.
  fold H U. destruct (subprocess_outcome w H) as [a|e]; [|reflexivity].
  destruct (decide (returncode a <> 0)); [|reflexivity].
  run_monad. fold U. destruct (subprocess_outcome w U) as [b|e]; [|reflexivity].
  destruct (decide (returncode b <> 0)); reflexivity.
Qed.

Lemma translate_handlers_result {A} (e : exn) (s : state) :
  exists m, @Gemini.translate_handlers A e w s = (Raise (ValueError m), s).
Proof. destruct e; eexists; reflexivity. Qed.

Lemma translate_handlers_ValueError {A} (m : pystr) (s : state) :
  @Gemini.translate_handlers A (ValueError m) w s
  = (Raise (ValueError (Gemini.unexpected_prefix ++ m)), s).
Proof. reflexivity. Qed.

(** [translate_with_api] in normal form, once a credential is present
    and the payload file could be written. *)
Lemma translate_with_api_cases (self : Gemini.QuickTranslator) (text : pystr)
      (c : N) (k p : pystr) (t : Z) (tr : list event) :
  Gemini.api_key self = Some (c :: k) ->
  tempfile_outcome w = Ok p ->
  let t0 := t + duration w OpBuild in
  let tf := t0 + duration w OpTempFile in
  let s1 := {| now := tf;
               trace := tr ++ [EvTempFile (Gemini.json_data text) t0 tf] |} in
  let unlinked s :=
    {| now := now s + duration w OpUnlink; trace := trace s ++ [EvUnlink p] |} in
  let parsed s := {| now := now s + duration w OpParse; trace := trace s |} in
  Gemini.translate_with_api rt self text w {| now := t; trace := tr |}
  = match Gemini.call_api (c :: k) p t0 w s1 with
    | (Ok (body, elapsed_time), s2) =>
      match Gemini.parse_response rt body with
      | Ok txt => (Ok (txt, elapsed_time), parsed (unlinked s2))
      | Raise e => Gemini.translate_handlers e w (parsed (unlinked s2))
      end
    | (Raise e, s2) => Gemini.translate_handlers e w (unlinked s2)
    end.
Proof.
  intros Hk Ht t0 tf s1 unlinked parsed.
  unfold Gemini.translate_with_api. rewrite Hk. run_monad. rewrite Ht.
  fold t0 tf s1. destruct (Gemini.call_api (c :: k) p t0 w s1) as [[[body el]|e] [t2 tr2]].
  - run_monad. destruct (Gemini.parse_response rt body); reflexivity.
  - reflexivity.
Qed.

End GeminiTransport.

(** C3.  When the header attempt exits with status zero, the only things
    [translate_with_api] does are: write the payload file, run the header
    command, remove the file.  No query-parameter command is run, whatever
    the response body holds (an error object included). *)
Theorem header_exit_zero_never_falls_back
        (rt : PyRuntime) (w : world) (self : Gemini.QuickTranslator)
        (text : pystr) (s : state) (key p : pystr) (cp : CompletedProcess) :
  Gemini.api_key self = Some key ->
  nonempty key = true ->
  tempfile_outcome w = Ok p ->
  subprocess_outcome w (Gemini.curl_cmd_header key p) = Ok cp ->
  returncode cp = 0 ->
  let t0 := now s + duration w OpBuild in
  let t1 := t0 + duration w OpTempFile in
  let t2 := t1 + duration w (OpRun (Gemini.curl_cmd_header key p)) in
  let events :=
    [EvTempFile (Gemini.json_data text) t0 t1;
     EvRun (Gemini.curl_cmd_header key p) None t1 t2;
     EvUnlink p] in
  trace (snd (Gemini.translate_with_api rt self text w s)) = trace s ++ events
  /\ forall key' p' input a b,
       EvRun (Gemini.curl_cmd_url_param key' p') input a b ∉ events.
Proof.
  intros Hk Hne Ht Hh Hrc t0 t1 t2 events. split.
  - destruct s as [t tr]. destruct key as [|c k]; [discriminate|].
    rewrite (translate_with_api_cases rt w self text c k p t tr Hk Ht).
    rewrite call_api_cases. cbv zeta. rewrite Hh.
    destruct (decide (returncode cp <> 0)) as [Hnz|_]; [contradiction|].
    subst events t0 t1 t2. cbn [now trace].
    destruct (Gemini.parse_response rt (stdout cp)) as [txt|e].
    + cbn [snd trace]. rewrite <- !app_assoc. reflexivity.
    + match goal with
      | |- context [Gemini.translate_handlers e w ?st] =>
        destruct (translate_handlers_result (A := pystr * Z) w e st) as [m ->]
      end.
      cbn [snd trace]. rewrite <- !app_assoc. reflexivity.
  - intros key' p' input a b Hin. subst events.
    rewrite !elem_of_cons in Hin. destruct Hin as [Hin|[Hin|[Hin|Hin]]].
    + discriminate Hin.
    + apply (f_equal (fun ev => match ev with
                                | EvRun argv _ _ _ => argv
                                | _ => []
                                end)) in Hin.
      exact (variants_differ _ _ _ _ Hin).
    + discriminate Hin.
    + by apply elem_of_nil in Hin.
Qed.

Lemma header_exit_zero_never_falls_back_witness :
  let w := Scenario.world_header_ok Scenario.body_api_error in
  let r := Gemini.translate_with_api Scenario.rt Scenario.session (u "Hello") w
             (init_state 100) in
  fst r = Raise (ValueError (u "予期しないエラー: APIエラー: Invalid API key"))
  /\ trace (snd r)
     = [EvTempFile (Gemini.json_data (u "Hello")) 107 108;
        EvRun (Gemini.curl_cmd_header Scenario.key Scenario.tmp) None 108 110;
        EvUnlink Scenario.tmp].
Proof.
  intros w r. split; [vm_compute; reflexivity|].
  destruct (header_exit_zero_never_falls_back Scenario.rt w Scenario.session
              (u "Hello") (init_state 100) Scenario.key Scenario.tmp
              {| returncode := 0; stdout := Scenario.body_api_error; stderr := [] |})
    as [Htrace _]; [reflexivity | reflexivity | reflexivity
                    | vm_compute; reflexivity | reflexivity |].
  subst r. rewrite Htrace. vm_compute. reflexivity.
Defined.

Lemma curl_error_msg_expanded (b : CompletedProcess) :
  Gemini.curl_error_msg b
  = u "curlエラー: 接続に失敗しました (exit code: " ++ of_Z (returncode b) ++ u ")"
      ++ (if nonempty (stderr b) then nl ++ u "詳細: " ++ stderr b else []).
Proof.
  unfold Gemini.curl_error_msg. destruct (nonempty (stderr b)).
  - rewrite <- !app_assoc. reflexivity.
  - rewrite app_nil_r. reflexivity.
Qed.

(** C4.  When both curl commands exit with a non-zero status, the error
    that leaves [translate_with_api] carries the exit status of the second
    (query-parameter) command and, when it is not empty, its standard
    error; nothing of the first command's result enters the message. *)
Theorem double_failure_reports_second_attempt
        (rt : PyRuntime) (w : world) (self : Gemini.QuickTranslator)
        (text : pystr) (s : state) (key p : pystr) (a b : CompletedProcess) :
  Gemini.api_key self = Some key ->
  nonempty key = true ->
  tempfile_outcome w = Ok p ->
  subprocess_outcome w (Gemini.curl_cmd_header key p) = Ok a ->
  returncode a <> 0 ->
  subprocess_outcome w (Gemini.curl_cmd_url_param key p) = Ok b ->
  returncode b <> 0 ->
  fst (Gemini.translate_with_api rt self text w s)
  = Raise (ValueError
      (Gemini.unexpected_prefix
         ++ u "curlエラー: 接続に失敗しました (exit code: "
         ++ of_Z (returncode b) ++ u ")"
         ++ (if nonempty (stderr b) then nl ++ u "詳細: " ++ stderr b else []))).
Proof.
  intros Hk Hne Ht Ha Hrca Hb Hrcb.
  destruct s as [t tr]. destruct key as [|c k]; [discriminate|].
  rewrite (translate_with_api_cases rt w self text c k p t tr Hk Ht).
  rewrite call_api_cases. cbv zeta. rewrite Ha, Hb.
  destruct (decide (returncode a <> 0)); [|contradiction].
  destruct (decide (returncode b <> 0)); [|contradiction].
  rewrite translate_handlers_ValueError, curl_error_msg_expanded. reflexivity.
Qed.

Lemma double_failure_reports_second_attempt_witness :
  fst (Gemini.translate_with_api Scenario.rt Scenario.session (u "Hello")
         (Scenario.world_fallback
            (Scenario.completed 6 [] (u "Could not resolve host")))
         (init_state 100))
  = Raise (ValueError
      (u "予期しないエラー: curlエラー: 接続に失敗しました (exit code: 6)"
         ++ nl ++ u "詳細: Could not resolve host")).
Proof.
  rewrite (double_failure_reports_second_attempt Scenario.rt _ Scenario.session
             (u "Hello") (init_state 100) Scenario.key Scenario.tmp
             {| returncode := 1; stdout := []; stderr := u "Auth error" |}
             {| returncode := 6; stdout := [];
                stderr := u "Could not resolve host" |});
    [vm_compute; reflexivity | reflexivity | reflexivity | reflexivity
     | vm_compute; reflexivity | discriminate | vm_compute; reflexivity
     | discriminate].
Defined.

(** Where the two clock readings of [translate_with_api] stand.  Whenever
    the call returns a translation, the elapsed time it returns is the
    clock difference between the moment just before the payload file is
    written (the payload is already built) and the moment the first, header
    attempt comes back: the second reading is taken before the
    query-parameter attempt is started, whether or not that attempt is the
    one that answers. *)
Theorem elapsed_time_covers_file_and_first_attempt
        (rt : PyRuntime) (w : world) (self : Gemini.QuickTranslator)
        (text : pystr) (s : state) (txt : pystr) (elapsed : Z) :
  fst (Gemini.translate_with_api rt self text w s) = Ok (txt, elapsed) ->
  exists key p rest,
    Gemini.api_key self = Some key
    /\ tempfile_outcome w = Ok p
    /\ let t0 := now s + duration w OpBuild in
       let t1 := t0 + duration w OpTempFile in
       let t2 := t1 + duration w (OpRun (Gemini.curl_cmd_header key p)) in
       trace (snd (Gemini.translate_with_api rt self text w s))
       = trace s ++ EvTempFile (Gemini.json_data text) t0 t1
                 :: EvRun (Gemini.curl_cmd_header key p) None t1 t2 :: rest
       /\ elapsed = t2 - t0.
Proof.
  intros Hok. destruct s as [t tr].
  destruct (Gemini.api_key self) as [[|c k]|] eqn:Hk;
    [unfold Gemini.translate_with_api in Hok; rewrite Hk in Hok; discriminate Hok
    | | unfold Gemini.translate_with_api in Hok; rewrite Hk in Hok; discriminate Hok].
  destruct (tempfile_outcome w) as [p|e] eqn:Ht.
  2:{ unfold Gemini.translate_with_api in Hok. rewrite Hk in Hok.
      revert Hok. run_monad. rewrite Ht.
      destruct (translate_handlers_result (A := pystr * Z) w e
                  {| now := t + duration w OpBuild + duration w OpTempFile;
                     trace := tr ++ [EvTempFile (Gemini.json_data text)
                                       (t + duration w OpBuild)
                                       (t + duration w OpBuild + duration w OpTempFile)] |})
        as [m ->].
      discriminate. }
  exists (c :: k), p.
  revert Hok. rewrite (translate_with_api_cases rt w self text c k p t tr Hk Ht).
  rewrite call_api_cases. cbv zeta. cbn [now trace].
  set (H := Gemini.curl_cmd_header (c :: k) p).
  set (U := Gemini.curl_cmd_url_param (c :: k) p).
  set (t0 := t + duration w OpBuild).
  set (t1 := t0 + duration w OpTempFile).
  set (t2 := t1 + duration w (OpRun H)).
  assert (Hraise : forall e st X,
             fst (@Gemini.translate_handlers (pystr * Z) e w st) = Ok X -> False).
  { intros e st X. destruct (translate_handlers_result (A := pystr * Z) w e st)
      as [m ->]. discriminate. }
  destruct (subprocess_outcome w H) as [a|e]; [|intros Hok; destruct (Hraise _ _ _ Hok)].
  destruct (decide (returncode a <> 0)).
  - destruct (subprocess_outcome w U) as [b|e];
      [|intros Hok; destruct (Hraise _ _ _ Hok)].
    destruct (decide (returncode b <> 0));
      [intros Hok; destruct (Hraise _ _ _ Hok)|].
    destruct (Gemini.parse_response rt (stdout b)) as [txt'|e];
      [|intros Hok; destruct (Hraise _ _ _ Hok)].
    cbn [fst snd now trace]. intros [= _ <-].
    exists [EvRun U None t2 (t2 + duration w (OpRun U)); EvUnlink p].
    repeat split; try reflexivity. rewrite <- !app_assoc. reflexivity.
  - destruct (Gemini.parse_response rt (stdout a)) as [txt'|e];
      [|intros Hok; destruct (Hraise _ _ _ Hok)].
    cbn [fst snd now trace]. intros [= _ <-].
    exists [EvUnlink p].
    repeat split; try reflexivity. rewrite <- !app_assoc. reflexivity.
Qed.

Lemma elapsed_time_covers_file_and_first_attempt_witness :
  let w := Scenario.world_fallback_ok in
  let s := init_state 100 in
  exists key p rest,
    Gemini.api_key Scenario.session = Some key
    /\ tempfile_outcome w = Ok p
    /\ let t0 := now s + duration w OpBuild in
       let t1 := t0 + duration w OpTempFile in
       let t2 := t1 + duration w (OpRun (Gemini.curl_cmd_header key p)) in
       trace (snd (Gemini.translate_with_api Scenario.rt Scenario.session
                     (u "Hello") w s))
       = trace s ++ EvTempFile (Gemini.json_data (u "Hello")) t0 t1
                 :: EvRun (Gemini.curl_cmd_header key p) None t1 t2 :: rest
       /\ 3 = t2 - t0.
Proof.
  intros w s.
  apply (elapsed_time_covers_file_and_first_attempt Scenario.rt w Scenario.session
           (u "Hello") s (u "Translation result") 3).
  vm_compute. reflexivity.
Defined.

(** C5.  The elapsed time must run from just before the first transport
    attempt until just after the attempt that decides the outcome; the
    code stops its timer before the fallback attempt.  The clock stands at
    100; building the payload takes 7 ticks, writing the file 1, the header
    attempt 2 (exit status 1), the query-parameter attempt 5 (exit status
    0, a well-formed response), parsing 11.  The first transport attempt
    starts at 108 and the attempt that decides the outcome comes back at
    115, but the elapsed time returned with that attempt's translation is
    3, not 115 - 108. *)
Lemma elapsed_time_misses_decisive_fallback :
  Gemini.translate_with_api Scenario.rt Scenario.session (u "Hello")
    Scenario.world_fallback_ok (init_state 100)
  = (Ok (u "Translation result", 3),
     {| now := 126;
        trace :=
          [EvTempFile (Gemini.json_data (u "Hello")) 107 108;
           EvRun (Gemini.curl_cmd_header Scenario.key Scenario.tmp) None 108 110;
           EvRun (Gemini.curl_cmd_url_param Scenario.key Scenario.tmp) None 110 115;
           EvUnlink Scenario.tmp] |})
  /\ 3 <> 115 - 108.
Proof. split; [vm_compute; reflexivity | discriminate]. Qed.

(** ** The Gemini response classifier *)

(** On a well-formed response whose text field is a non-empty string,
    the classifier returns the stripped text, empty or not. *)
Lemma extract_translation_strips (rt : PyRuntime) (text : pystr) :
  text <> [] ->
  Gemini.extract_translation rt (Scenario.value_with_text text) = Ok (strip text).
Proof.
  intros Hne. destruct text as [|c text]; [contradiction|].
  vm_compute. reflexivity.
Qed.

(** A classified error raised while parsing leaves [translate_with_api]
    with the generic prefix in front of its message. *)
Lemma parse_errors_are_rewrapped
      (rt : PyRuntime) (w : world) (self : Gemini.QuickTranslator)
      (text : pystr) (s : state) (key p : pystr) (cp : CompletedProcess)
      (m : pystr) :
  Gemini.api_key self = Some key ->
  nonempty key = true ->
  tempfile_outcome w = Ok p ->
  subprocess_outcome w (Gemini.curl_cmd_header key p) = Ok cp ->
  returncode cp = 0 ->
  Gemini.parse_response rt (stdout cp) = Raise (ValueError m) ->
  fst (Gemini.translate_with_api rt self text w s)
  = Raise (ValueError (Gemini.unexpected_prefix ++ m)).
Proof.
  intros Hk Hne Ht Hh Hrc Hp.
  destruct s as [t tr]. destruct key as [|c k]; [discriminate|].
  rewrite (translate_with_api_cases rt w self text c k p t tr Hk Ht).
  rewrite call_api_cases. cbv zeta. rewrite Hh.
  destruct (decide (returncode cp <> 0)); [contradiction|].
  rewrite Hp. reflexivity.
Qed.

(** C1: the code departs from the claim.  The header attempt exits with
    status zero and a well-formed response whose text field holds a space,
    an ideographic space and a space; [translate_with_api] returns a
    translation, and its text is the empty string. *)
Theorem whitespace_text_is_returned_as_success :
  Scenario.blank = [32; 12288; 32]%N
  /\ json_loads Scenario.rt (Scenario.body_with_text Scenario.blank)
     = Some (Scenario.value_with_text Scenario.blank)
  /\ fst (Gemini.translate_with_api Scenario.rt Scenario.session (u "Hello")
            (Scenario.world_header_ok (Scenario.body_with_text Scenario.blank))
            (init_state 100))
     = Ok ([], 3).
Proof. repeat split; vm_compute; reflexivity. Qed.

(** C2: the code departs from the claim.  A response that is not JSON,
    and a response carrying the provider's error object, both reach the
    caller with the "unexpected error" prefix put in front of the
    classified message. *)
Theorem classified_failures_are_rewrapped :
  fst (Gemini.translate_with_api Scenario.rt Scenario.session (u "Hello")
         (Scenario.world_header_ok (u "Invalid JSON")) (init_state 100))
  = Raise (ValueError
      (u "予期しないエラー: エラー: 無効なJSONレスポンス" ++ nl ++ u "Invalid JSON"))
  /\ Gemini.parse_response Scenario.rt (u "Invalid JSON")
     = Raise (ValueError (u "エラー: 無効なJSONレスポンス" ++ nl ++ u "Invalid JSON"))
  /\ fst (Gemini.translate_with_api Scenario.rt Scenario.session (u "Hello")
            (Scenario.world_header_ok Scenario.body_api_error) (init_state 100))
     = Raise (ValueError (u "予期しないエラー: APIエラー: Invalid API key"))
  /\ Gemini.parse_response Scenario.rt Scenario.body_api_error
     = Raise (ValueError (u "APIエラー: Invalid API key")).
Proof. repeat split; vm_compute; reflexivity. Qed.

(** ** The credential resolver *)

Section CredentialResolver.
Variable w : world.

(** The resolver of [translate_gemini.py] in normal form. *)
Lemma gemini_get_api_key_cases (s : state) :
  let argv := key_probe w (u "GEMINI_API_KEY") in
  Gemini._get_api_key w s
  = (match subprocess_outcome w argv with
     | Ok r =>
       Ok (if nonempty (strip (stdout r)) then Some (strip (stdout r)) else None)
     | Raise e =>
       if is_SubprocessError e then Ok (environ w !! u "GEMINI_API_KEY")
       else Raise e
     end, after_run w argv s).
Proof.
  destruct s as [t tr]. intros argv. unfold Gemini._get_api_key. run_monad.
  change ([default (u "/bin/sh") (environ w !! u "SHELL"); u "-l"; u "-c";
           u "echo $GEMINI_API_KEY"]) with argv.
  destruct (subprocess_outcome w argv) as [r|e]; [reflexivity|].
  destruct (is_SubprocessError e); reflexivity.
Qed.

(** The resolver of [translation_benchmark.py] in normal form. *)
Lemma benchmark_get_api_key_cases (name : pystr) (s : state) :
  let argv := key_probe w name in
  Benchmark._get_api_key name w s
  = (Ok (match subprocess_outcome w argv with
         | Ok r =>
           if nonempty (strip (stdout r)) then Some (strip (stdout r))
           else environ w !! name
         | Raise _ => environ w !! name
         end), after_run w argv s).
Proof.
  destruct s as [t tr]. intros argv. unfold Benchmark._get_api_key. run_monad.
  fold (key_probe w name). fold argv.
  destruct (subprocess_outcome w argv) as [r|e]; [|reflexivity].
  destruct (nonempty (strip (stdout r))); reflexivity.
Qed.

(** The benchmark's resolver does what C6 asks: a probe that fails in
    any way, or prints nothing but white space, sends it to the process
    environment. *)
Lemma benchmark_falls_back_to_environment (name : pystr) (s : state) :
  (forall r, subprocess_outcome w (key_probe w name) = Ok r ->
             strip (stdout r) = []) ->
  fst (Benchmark._get_api_key name w s) = Ok (environ w !! name).
Proof.
  intros Hempty. rewrite benchmark_get_api_key_cases. cbv zeta. cbn [fst].
  destruct (subprocess_outcome w (key_probe w name)) as [r|e]; [|reflexivity].
  rewrite (Hempty r eq_refl). reflexivity.
Qed.

(** The Gemini resolver does so only when the probe raises. *)
Lemma gemini_falls_back_when_probe_raises (s : state) (e : exn) :
  subprocess_outcome w (key_probe w (u "GEMINI_API_KEY")) = Raise e ->
  is_SubprocessError e = true ->
  fst (Gemini._get_api_key w s) = Ok (environ w !! u "GEMINI_API_KEY").
Proof.
  intros Hp He. rewrite gemini_get_api_key_cases. cbv zeta. cbn [fst].
  rewrite Hp, He. reflexivity.
Qed.

Lemma gemini_ignores_environment_after_empty_probe (s : state)
      (r : CompletedProcess) :
  subprocess_outcome w (key_probe w (u "GEMINI_API_KEY")) = Ok r ->
  strip (stdout r) = [] ->
  fst (Gemini._get_api_key w s) = Ok None.
Proof.
  intros Hp He. rewrite gemini_get_api_key_cases. cbv zeta. cbn [fst].
  rewrite Hp, He. reflexivity.
Qed.

End CredentialResolver.

(** C6: the code departs from the claim.  The login shell answers the
    probe with an empty line while the process environment holds the key:
    the resolver of [translate_gemini.py] returns [None]; the resolver of
    [translation_benchmark.py], on the same input, returns the key of the
    environment. *)
Theorem gemini_resolver_skips_environment_on_empty_probe :
  let w := Scenario.world_empty_probe in
  environ w !! u "GEMINI_API_KEY" = Some (u "env-key")
  /\ subprocess_outcome w (key_probe w (u "GEMINI_API_KEY"))
     = Scenario.completed 0 nl []
  /\ fst (Gemini._get_api_key w (init_state 0)) = Ok None
  /\ fst (Benchmark._get_api_key (u "GEMINI_API_KEY") w (init_state 0))
     = Ok (Some (u "env-key")).
Proof. repeat split; vm_compute; reflexivity. Qed.

(** ** The executable locator: a failed PATH probe *)

(** C9, as the code has it.  When the login-shell PATH probe fails, the
    locator stops there: it returns no path and the empty list.  The probe
    is the only thing it did; no directory is put in front of the (empty)
    list and none is scanned. *)
Theorem failed_probe_ends_the_search (w : world) (s : state) :
  probe_failed (subprocess_outcome w (path_probe_of w)) ->
  Plamo._find_plamo_translate w s
  = (Ok (None, []), after_run w (path_probe_of w) s).
Proof.
  intros Hfail. destruct s as [t tr].
  unfold Plamo._find_plamo_translate, Plamo._search_via_shell,
    Plamo._get_path_from_shell. run_monad.
  fold (path_probe_of w). unfold probe_failed in Hfail.
  destruct (subprocess_outcome w (path_probe_of w)) as [cp|e].
  - destruct (decide (returncode cp <> 0)); [reflexivity|contradiction].
  - destruct e; try reflexivity; contradiction.
Qed.

Lemma failed_probe_ends_the_search_witness :
  Plamo._find_plamo_translate Scenario.world_probe_fails (init_state 0)
  = (Ok (None, []),
     {| now := 0;
        trace := [EvRun [u "/bin/sh"; u "-l"; u "-c"; Plamo.sh_cmd] None 0 0] |}).
Proof.
  rewrite (failed_probe_ends_the_search Scenario.world_probe_fails (init_state 0));
    [vm_compute; reflexivity | vm_compute; discriminate].
Defined.

(** C9, as the claim states it, fails.  The probe exits with status 1;
    [/usr/local/bin] exists and holds an executable [plamo-translate].
    Augmenting the empty list would give [/usr/local/bin], and a scan of
    that list would find the executable; the locator returns neither. *)
Lemma failed_probe_skips_augmentation_and_scan :
  let w := Scenario.world_probe_fails in
  subprocess_outcome w (path_probe_of w) = Scenario.completed 1 [] []
  /\ Plamo._ensure_common_paths w [] = [u "/usr/local/bin"]
  /\ Plamo.scan w (Plamo._ensure_common_paths w [])
     = Some (u "/usr/local/bin/plamo-translate")
  /\ fst (Plamo._find_plamo_translate w (init_state 0)) = Ok (None, []).
Proof. repeat split; vm_compute; reflexivity. Qed.

(** ** Empty input *)

Section EmptyInput.
Variable rt : PyRuntime.
Variable w : world.

(** [_show_dialog] in normal form. *)
Lemma show_dialog_cases (message title : pystr) (s : state) :
  let argv := [u "osascript"; u "-e"; dialog_script message title] in
  _show_dialog message title w s
  = match subprocess_outcome w argv with
    | Ok _ => (Ok tt, after_run w argv s)
    | Raise e =>
      if is_SubprocessError e then
        (Ok tt, {| now := now (after_run w argv s);
                   trace := trace (after_run w argv s)
                              ++ [EvStdout (title ++ u ": " ++ message)] |})
      else (Raise e, after_run w argv s)
    end.
Proof.
  destruct s as [t tr]. intros argv. unfold _show_dialog. run_monad. fold argv.
  destruct (subprocess_outcome w argv) as [r|e]; [reflexivity|].
  destruct (is_SubprocessError e); reflexivity.
Qed.

Lemma no_text_dialog_refused (s : state) :
  refused w s
    (let (r, s') :=
       _show_dialog (u "テキストが選択されていません") (u "エラー") w s in
     match r with
     | Ok _ => (Ok false, s')
     | Raise e => (Raise e, s')
     end).
Proof.
  rewrite show_dialog_cases. cbv zeta. fold no_text_dialog.
  destruct (subprocess_outcome w no_text_dialog) as [r|e] eqn:Ho.
  - split; [left; reflexivity | left; reflexivity].
  - destruct (is_SubprocessError e) eqn:He.
    + split; [right; reflexivity | left; reflexivity].
    + split; [left; reflexivity | right; exists e; auto].
Qed.

Lemma gemini_run_empty (self : Gemini.QuickTranslator) (s : state) :
  refused w s (Gemini.run rt self [] w s).
Proof.
  pose proof (no_text_dialog_refused s) as H.
  unfold Gemini.run. cbn [nonempty negb]. revert H. run_monad.
  destruct s as [t tr]. exact (fun H => H).
Qed.

Lemma plamo_run_empty (self : Plamo.PlamoTranslator) (s : state) :
  refused w s (Plamo.run rt self [] w s).
Proof.
  pose proof (no_text_dialog_refused s) as H.
  unfold Plamo.run. cbn [nonempty negb]. revert H. run_monad.
  exact (fun H => H).
Qed.

Lemma refused_exit (s : state) (x : result bool * state) :
  refused w s x ->
  exit_status (rbind (fst x) (fun success => Ok (if success then 0 else 1))) = 1.
Proof.
  intros [_ [-> | (e & -> & _)]]; reflexivity.
Qed.

End EmptyInput.

(** C10.  When the text read by [main] is empty after trimming, both
    [run] methods, given the trimmed text, do nothing but show the
    "no text selected" dialog and return [False]: whatever the session
    holds (credential or executable path, present or not), no payload
    file is written and no curl or plamo-translate command is run.  The
    process then ends with exit status 1. *)
Theorem empty_input_is_refused
        (rt : PyRuntime) (w : world) (s : state)
        (gself : Gemini.QuickTranslator) (pself : Plamo.PlamoTranslator) :
  strip (read_text w) = [] ->
  refused w s (Gemini.run rt gself (strip (read_text w)) w s)
  /\ refused w s (Plamo.run rt pself (strip (read_text w)) w s)
  /\ exit_status (fst (Gemini.main rt w s)) = 1
  /\ exit_status (fst (Plamo.main rt w s)) = 1.
Proof.
  intros Hempty. rewrite Hempty.
  split; [apply gemini_run_empty|]. split; [apply plamo_run_empty|]. split.
  - unfold Gemini.main. run_monad. rewrite Hempty.
    destruct (Gemini.__init__ w s) as [[translator|e] s1]; [|reflexivity].
    pose proof (refused_exit w s1 _ (gemini_run_empty rt w translator s1)) as H.
    destruct (Gemini.run rt translator [] w s1) as [[success|e] s2]; exact H.
  - unfold Plamo.main. run_monad. rewrite Hempty.
    destruct (Plamo.__init__ w s) as [[translator|e] s1]; [|reflexivity].
    pose proof (refused_exit w s1 _ (plamo_run_empty rt w translator s1)) as H.
    destruct (Plamo.run rt translator [] w s1) as [[success|e] s2]; exact H.
Qed.

Lemma empty_input_is_refused_witness :
  let w := Scenario.world_blank_stdin in
  read_text w = [32; 12288; 10]%N
  /\ Gemini.run Scenario.rt Scenario.session (strip (read_text w)) w (init_state 0)
     = (Ok false, {| now := 0; trace := [EvRun no_text_dialog None 0 0] |})
  /\ exit_status (fst (Gemini.main Scenario.rt w (init_state 0))) = 1
  /\ exit_status (fst (Plamo.main Scenario.rt w (init_state 0))) = 1.
Proof.
  intros w.
  destruct (empty_input_is_refused Scenario.rt w (init_state 0) Scenario.session
              Scenario.plamo_session) as (_ & _ & Hg & Hp);
    [vm_compute; reflexivity|].
  split; [vm_compute; reflexivity|]. split; [vm_compute; reflexivity|].
  split; [exact Hg | exact Hp].
Defined.

(** ** The local translator, for comparison *)

(** [translate_with_plamo_cli] trims before it tests for emptiness: a
    translation it returns is never empty. *)
Lemma plamo_success_is_not_empty
      (w : world) (self : Plamo.PlamoTranslator) (text : pystr) (s : state)
      (txt : pystr) (elapsed : Z) :
  fst (Plamo.translate_with_plamo_cli self text w s) = Ok (txt, elapsed) ->
  txt <> [].
Proof.
  destruct s as [t tr]. unfold Plamo.translate_with_plamo_cli.
  destruct (Plamo.plamo_path self) as [[|c exe]|].
  - unfold Plamo._show_plamo_not_found_error. run_monad.
    destruct (_show_dialog _ _ w _) as [[[]|e] s1]; discriminate.
  - run_monad.
    destruct (subprocess_outcome w _) as [r|e].
    + destruct (decide (returncode r <> 0)); [discriminate|].
      destruct (strip (stdout r)) as [|c1 out] eqn:Hout; [discriminate|].
      cbn [nonempty negb fst]. intros [= <- _]. discriminate.
    + destruct e; discriminate.
  - unfold Plamo._show_plamo_not_found_error. run_monad.
    destruct (_show_dialog _ _ w _) as [[[]|e] s1]; discriminate.
Qed.

(** * Further properties of the code *)

(** ** translate_gemini.py: the translation call *)

(** Without a credential ([None] or the empty string) the call raises the
    missing-credential error at once: the clock is not read, nothing is
    written and no command is run. *)
Lemma translate_without_credential
      (rt : PyRuntime) (w : world) (self : Gemini.QuickTranslator)
      (text : pystr) (s : state) :
  Gemini.api_key self = None \/ Gemini.api_key self = Some [] ->
  Gemini.translate_with_api rt self text w s
  = (Raise (ValueError (u "エラー: 環境変数GEMINI_API_KEYが設定されていません")), s).
Proof.
  intros [Hk|Hk]; unfold Gemini.translate_with_api; rewrite Hk; reflexivity.
Qed.

(** X1.  Without a credential, [run] on a text to translate shows the
    missing-credential message in the error dialog and returns [False];
    the dialog is all it does: no payload file, no curl, no pbcopy. *)
Theorem gemini_run_without_credential
        (rt : PyRuntime) (w : world) (self : Gemini.QuickTranslator)
        (input : pystr) (s : state) (r : CompletedProcess) :
  input <> [] ->
  Gemini.api_key self = None \/ Gemini.api_key self = Some [] ->
  let dialog :=
    [u "osascript"; u "-e";
     dialog_script (u "エラー: 環境変数GEMINI_API_KEYが設定されていません")
                   (u "エラー")] in
  subprocess_outcome w dialog = Ok r ->
  Gemini.run rt self input w s = (Ok false, after_run w dialog s).
Proof.
  intros Hne Hk dialog Hd. destruct input as [|c input]; [contradiction|].
  unfold Gemini.run. cbn [nonempty negb].
  unfold try_except at 1. unfold bind at 1.
  rewrite (translate_without_credential rt w self (c :: input) s Hk).
  cbn [is_ValueError str_exn]. unfold bind, ret.
  rewrite show_dialog_cases. cbv zeta. fold dialog. rewrite Hd. reflexivity.
Qed.

Lemma gemini_run_without_credential_witness :
  Gemini.run Scenario.rt
    {| Gemini.program_start_time := 0; Gemini.api_key := None |} (u "Hello")
    (Scenario.world_header_ok []) (init_state 100)
  = (Ok false,
     {| now := 100;
        trace :=
          [EvRun [u "osascript"; u "-e";
                  dialog_script
                    (u "エラー: 環境変数GEMINI_API_KEYが設定されていません")
                    (u "エラー")] None 100 100] |}).
Proof.
  rewrite (gemini_run_without_credential Scenario.rt _
             {| Gemini.program_start_time := 0; Gemini.api_key := None |}
             (u "Hello") (init_state 100)
             {| returncode := 0; stdout := []; stderr := [] |});
    [vm_compute; reflexivity | vm_compute; discriminate | left; reflexivity
     | vm_compute; reflexivity].
Defined.

(** X2.  Whatever the world answers, an exception that leaves
    [translate_with_api] is a [ValueError]. *)
Theorem gemini_failures_are_value_errors
        (rt : PyRuntime) (w : world) (self : Gemini.QuickTranslator)
        (text : pystr) (s : state) (e : exn) :
  fst (Gemini.translate_with_api rt self text w s) = Raise e ->
  exists m, e = ValueError m.
Proof.
  destruct s as [t tr].
  assert (Hh : forall e0 st, fst (@Gemini.translate_handlers (pystr * Z) e0 w st) = Raise e ->
                             exists m, e = ValueError m).
  { intros e0 st. destruct (translate_handlers_result (A := pystr * Z) w e0 st)
      as [m ->]. intros [= <-]. eauto. }
  destruct (Gemini.api_key self) as [[|c k]|] eqn:Hk;
    [unfold Gemini.translate_with_api; rewrite Hk; intros [= <-]; eauto
    | | unfold Gemini.translate_with_api; rewrite Hk; intros [= <-]; eauto].
  destruct (tempfile_outcome w) as [p|e0] eqn:Ht.
  - rewrite (translate_with_api_cases rt w self text c k p t tr Hk Ht).
    cbv zeta. destruct (Gemini.call_api _ _ _ w _) as [[[body el]|e0] s2].
    + destruct (Gemini.parse_response rt body); [discriminate|apply Hh].
    + apply Hh.
  - unfold Gemini.translate_with_api. rewrite Hk. run_monad. rewrite Ht.
    apply Hh.
Qed.

Lemma gemini_failures_are_value_errors_witness :
  exists m,
    ValueError (u "タイムアウトエラー: API呼び出しがタイムアウトしました")
    = ValueError m.
Proof.
  apply (gemini_failures_are_value_errors Scenario.rt
           (Scenario.mk_world ∅ (Raise (TimeoutExpired (u "timed out")))
              (Scenario.completed 0 [] []) (Scenario.completed 0 [] [])
              Scenario.durations [] [])
           Scenario.session (u "Hello") (init_state 100)).
  vm_compute. reflexivity.
Defined.

(** X3.  Once the payload file is written it is removed exactly once, after
    the last transport attempt, however the call ends (a translation, a
    classified error, a timeout).  Between the writing and the removal
    there is the header curl command and, only when that command came back
    with a non-zero exit status, the query-parameter curl command after
    it; nothing else happens in between and nothing follows the removal. *)
Theorem gemini_payload_file_is_always_removed
        (rt : PyRuntime) (w : world) (self : Gemini.QuickTranslator)
        (text : pystr) (s : state) (key p : pystr) :
  Gemini.api_key self = Some key ->
  nonempty key = true ->
  tempfile_outcome w = Ok p ->
  let header := Gemini.curl_cmd_header key p in
  let fallback := Gemini.curl_cmd_url_param key p in
  let t0 := now s + duration w OpBuild in
  let t1 := t0 + duration w OpTempFile in
  let t2 := t1 + duration w (OpRun header) in
  let t3 := t2 + duration w (OpRun fallback) in
  let runs :=
    match subprocess_outcome w header with
    | Ok a =>
      if decide (returncode a <> 0)
      then [EvRun header None t1 t2; EvRun fallback None t2 t3]
      else [EvRun header None t1 t2]
    | Raise _ => [EvRun header None t1 t2]
    end in
  trace (snd (Gemini.translate_with_api rt self text w s))
  = trace s ++ EvTempFile (Gemini.json_data text) t0 t1 :: runs ++ [EvUnlink p].
Proof.
  intros Hk Hne Ht. destruct s as [t tr]. destruct key as [|c k]; [discriminate|].
  rewrite (translate_with_api_cases rt w self text c k p t tr Hk Ht).
  rewrite call_api_cases. cbv zeta. cbn [now trace].
  set (H := Gemini.curl_cmd_header (c :: k) p).
  set (U := Gemini.curl_cmd_url_param (c :: k) p).
  set (t0 := t + duration w OpBuild).
  set (t1 := t0 + duration w OpTempFile).
  set (t2 := t1 + duration w (OpRun H)).
  set (t3 := t2 + duration w (OpRun U)).
  assert (Hhandled : forall e0 st,
             trace (snd (@Gemini.translate_handlers (pystr * Z) e0 w st)) = trace st).
  { intros e0 st. destruct (translate_handlers_result (A := pystr * Z) w e0 st)
      as [m ->]. reflexivity. }
  destruct (subprocess_outcome w H) as [a|e0].
  - destruct (decide (returncode a <> 0)).
    + destruct (subprocess_outcome w U) as [b|e0].
      * destruct (decide (returncode b <> 0)).
        -- rewrite Hhandled. cbn [trace]. rewrite <- !app_assoc. reflexivity.
        -- destruct (Gemini.parse_response rt (stdout b));
             rewrite ?Hhandled; cbn [snd trace]; rewrite <- !app_assoc; reflexivity.
      * rewrite Hhandled. cbn [trace]. rewrite <- !app_assoc. reflexivity.
    + destruct (Gemini.parse_response rt (stdout a));
        rewrite ?Hhandled; cbn [snd trace]; rewrite <- !app_assoc; reflexivity.
  - rewrite Hhandled. cbn [trace]. rewrite <- !app_assoc. reflexivity.
Qed.

Lemma gemini_payload_file_is_always_removed_witness :
  trace (snd (Gemini.translate_with_api Scenario.rt Scenario.session (u "Hello")
                (Scenario.world_fallback (Raise (TimeoutExpired (u "timed out"))))
                (init_state 100)))
  = [EvTempFile (Gemini.json_data (u "Hello")) 107 108;
     EvRun (Gemini.curl_cmd_header Scenario.key Scenario.tmp) None 108 110;
     EvRun (Gemini.curl_cmd_url_param Scenario.key Scenario.tmp) None 110 115;
     EvUnlink Scenario.tmp].
Proof.
  etransitivity.
  - apply (gemini_payload_file_is_always_removed Scenario.rt
             (Scenario.world_fallback (Raise (TimeoutExpired (u "timed out"))))
             Scenario.session (u "Hello") (init_state 100)
             Scenario.key Scenario.tmp); reflexivity.
  - vm_compute. reflexivity.
Defined.

(** X4.  An attempt that does not come back (a timeout, a process error, a
    command that cannot be started) is not retried: when the header
    command raises, the query-parameter command is not run, and the error
    that leaves the call is fixed by the kind of the exception. *)
Theorem gemini_raised_attempt_is_not_retried
        (rt : PyRuntime) (w : world) (self : Gemini.QuickTranslator)
        (text : pystr) (s : state) (key p : pystr) (e : exn) :
  Gemini.api_key self = Some key ->
  nonempty key = true ->
  tempfile_outcome w = Ok p ->
  subprocess_outcome w (Gemini.curl_cmd_header key p) = Raise e ->
  let t0 := now s + duration w OpBuild in
  let t1 := t0 + duration w OpTempFile in
  let t2 := t1 + duration w (OpRun (Gemini.curl_cmd_header key p)) in
  Gemini.translate_with_api rt self text w s
  = (Raise (ValueError
       match e with
       | TimeoutExpired _ =>
         u "タイムアウトエラー: API呼び出しがタイムアウトしました"
       | SubprocessError m => u "プロセスエラー: " ++ m
       | _ => u "予期しないエラー: " ++ str_exn e
       end),
     {| now := t2 + duration w OpUnlink;
        trace := trace s ++ [EvTempFile (Gemini.json_data text) t0 t1;
                             EvRun (Gemini.curl_cmd_header key p) None t1 t2;
                             EvUnlink p] |}).
Proof.
  intros Hk Hne Ht He. destruct s as [t tr]. destruct key as [|c k]; [discriminate|].
  rewrite (translate_with_api_cases rt w self text c k p t tr Hk Ht).
  rewrite call_api_cases. cbv zeta. rewrite He. cbn [now trace].
  rewrite <- !app_assoc. destruct e; reflexivity.
Qed.

Lemma gemini_raised_attempt_is_not_retried_witness :
  Gemini.translate_with_api Scenario.rt Scenario.session (u "Hello")
    (Scenario.mk_world ∅ (Raise (TimeoutExpired (u "timed out")))
       (Scenario.completed 0 (Scenario.body_with_text (u "Translation result")) [])
       (Scenario.completed 0 [] []) Scenario.durations [] [])
    (init_state 100)
  = (Raise (ValueError (u "タイムアウトエラー: API呼び出しがタイムアウトしました")),
     {| now := 110;
        trace := [EvTempFile (Gemini.json_data (u "Hello")) 107 108;
                  EvRun (Gemini.curl_cmd_header Scenario.key Scenario.tmp) None 108 110;
                  EvUnlink Scenario.tmp] |}).
Proof.
  rewrite (gemini_raised_attempt_is_not_retried Scenario.rt _ Scenario.session
             (u "Hello") (init_state 100) Scenario.key Scenario.tmp
             (TimeoutExpired (u "timed out")));
    [vm_compute; reflexivity | reflexivity | reflexivity | reflexivity
     | vm_compute; reflexivity].
Defined.

(** X5.  When the header command exits with a non-zero status and the
    query-parameter command with zero, the outcome is decided by the
    second command's output alone: a text the classifier accepts is
    returned, and both commands were run, in that order. *)
Theorem gemini_fallback_answer_is_used
        (rt : PyRuntime) (w : world) (self : Gemini.QuickTranslator)
        (text : pystr) (s : state) (key p : pystr) (a b : CompletedProcess)
        (txt : pystr) :
  Gemini.api_key self = Some key ->
  nonempty key = true ->
  tempfile_outcome w = Ok p ->
  subprocess_outcome w (Gemini.curl_cmd_header key p) = Ok a ->
  returncode a <> 0 ->
  subprocess_outcome w (Gemini.curl_cmd_url_param key p) = Ok b ->
  returncode b = 0 ->
  Gemini.parse_response rt (stdout b) = Ok txt ->
  let t0 := now s + duration w OpBuild in
  let t1 := t0 + duration w OpTempFile in
  let t2 := t1 + duration w (OpRun (Gemini.curl_cmd_header key p)) in
  let t3 := t2 + duration w (OpRun (Gemini.curl_cmd_url_param key p)) in
  Gemini.translate_with_api rt self text w s
  = (Ok (txt, t2 - t0),
     {| now := t3 + duration w OpUnlink + duration w OpParse;
        trace := trace s ++ [EvTempFile (Gemini.json_data text) t0 t1;
                             EvRun (Gemini.curl_cmd_header key p) None t1 t2;
                             EvRun (Gemini.curl_cmd_url_param key p) None t2 t3;
                             EvUnlink p] |}).
Proof.
  intros Hk Hne Ht Ha Hrca Hb Hrcb Hp.
  destruct s as [t tr]. destruct key as [|c k]; [discriminate|].
  rewrite (translate_with_api_cases rt w self text c k p t tr Hk Ht).
  rewrite call_api_cases. cbv zeta. rewrite Ha, Hb.
  destruct (decide (returncode a <> 0)); [|contradiction].
  destruct (decide (returncode b <> 0)); [congruence|].
  rewrite Hp. cbn [now trace]. rewrite <- !app_assoc. reflexivity.
Qed.

Lemma gemini_fallback_answer_is_used_witness :
  fst (Gemini.translate_with_api Scenario.rt Scenario.session (u "Hello")
         Scenario.world_fallback_ok (init_state 100))
  = Ok (u "Translation result", 3).
Proof.
  rewrite (gemini_fallback_answer_is_used Scenario.rt _ Scenario.session
             (u "Hello") (init_state 100) Scenario.key Scenario.tmp
             {| returncode := 1; stdout := []; stderr := u "Auth error" |}
             {| returncode := 0;
                stdout := Scenario.body_with_text (u "Translation result");
                stderr := [] |}
             (u "Translation result"));
    [vm_compute; reflexivity | reflexivity | reflexivity | reflexivity
     | vm_compute; reflexivity | discriminate | vm_compute; reflexivity
     | reflexivity | vm_compute; reflexivity].
Defined.

(** ** translate_gemini.py: the response classifier *)

Section Classifier.
Variable rt : PyRuntime.

Lemma py_in_dict (k : pystr) (d : list (pystr * pyval)) :
  Val.py_in rt k (PDict d)
  = Ok (match Val.lookup_key k d with Some _ => true | None => false end).
Proof.
  unfold Val.py_in. destruct (Val.lookup_key k d) as [v|].
  - rewrite bool_decide_eq_true_2 by eauto. reflexivity.
  - rewrite bool_decide_eq_false_2; [reflexivity|]. intros [v Hv]. discriminate Hv.
Qed.

Lemma getitem_key_dict (k : pystr) (d : list (pystr * pyval)) (v : pyval) :
  Val.lookup_key k d = Some v -> Val.getitem_key rt (PDict d) k = Ok v.
Proof. intros H. unfold Val.getitem_key. rewrite H. reflexivity. Qed.

End Classifier.

(** X6.  The error object is looked for first: a response object with an
    ["error"] member that is itself an object is an application error
    whose message is the provider's ["message"] (or the fixed default when
    there is none), whether or not the response also carries candidates. *)
Theorem gemini_error_object_wins
        (rt : PyRuntime) (d err : list (pystr * pyval)) :
  Val.lookup_key (u "error") d = Some (PDict err) ->
  Gemini.extract_translation rt (PDict d)
  = Raise (ValueError
      (u "APIエラー: "
         ++ Val.py_str rt (default (PStr (u "不明なエラー"))
                                   (Val.lookup_key (u "message") err)))).
Proof.
  intros He. unfold Gemini.extract_translation.
  rewrite py_in_dict, He. cbn [rbind].
  rewrite (getitem_key_dict rt _ _ _ He). reflexivity.
Qed.

Lemma gemini_error_object_wins_witness :
  Gemini.extract_translation Scenario.rt
    (PDict [(u "candidates",
             PList [PDict [(u "content",
               PDict [(u "parts", PList [PDict [(u "text", PStr (u "Hi"))]])])]]);
            (u "error", PDict [(u "code", PInt 429)])])
  = Raise (ValueError (u "APIエラー: 不明なエラー")).
Proof.
  rewrite (gemini_error_object_wins Scenario.rt _ [(u "code", PInt 429)]);
    [vm_compute; reflexivity | vm_compute; reflexivity].
Defined.

(** X7.  A response object without an error member and without usable
    candidates (the member is missing, or is null, false, zero, an empty
    string, list or object) is the "no result" error. *)
Theorem gemini_no_candidates_is_no_result
        (rt : PyRuntime) (d : list (pystr * pyval)) :
  Val.lookup_key (u "error") d = None ->
  match Val.lookup_key (u "candidates") d with
  | Some c => Val.truthy c = false
  | None => True
  end ->
  Gemini.extract_translation rt (PDict d)
  = Raise (ValueError (u "エラー: 翻訳結果が取得できませんでした")).
Proof.
  intros He Hc. unfold Gemini.extract_translation, Gemini.result_missing.
  rewrite !py_in_dict, He. cbn [rbind].
  destruct (Val.lookup_key (u "candidates") d) as [c|] eqn:Hl; cbn [rbind negb].
  - rewrite (getitem_key_dict rt _ _ _ Hl). cbn [rbind]. rewrite Hc. reflexivity.
  - reflexivity.
Qed.

Lemma gemini_no_candidates_is_no_result_witness :
  Gemini.extract_translation Scenario.rt
    (PDict [(u "candidates", PList []); (u "modelVersion", PStr (u "x"))])
  = Raise (ValueError (u "エラー: 翻訳結果が取得できませんでした")).
Proof.
  apply gemini_no_candidates_is_no_result; vm_compute; reflexivity.
Defined.

(** X8.  The path to the text: a response object without an error member
    whose first candidate has a content with a first part holding a
    non-empty string under ["text"] yields that string, trimmed; members
    beside those on the path do not matter. *)
Theorem gemini_text_path_is_trimmed
        (rt : PyRuntime) (d c0 ct p0 : list (pystr * pyval))
        (cs ps : list pyval) (text : pystr) :
  Val.lookup_key (u "error") d = None ->
  Val.lookup_key (u "candidates") d = Some (PList (PDict c0 :: cs)) ->
  Val.lookup_key (u "content") c0 = Some (PDict ct) ->
  Val.lookup_key (u "parts") ct = Some (PList (PDict p0 :: ps)) ->
  Val.lookup_key (u "text") p0 = Some (PStr text) ->
  text <> [] ->
  Gemini.extract_translation rt (PDict d) = Ok (strip text).
Proof.
  intros He Hc Hct Hp Ht Hne.
  unfold Gemini.extract_translation, Gemini.result_missing.
  rewrite !py_in_dict, He, Hc. cbn [rbind negb].
  rewrite (getitem_key_dict rt _ _ _ Hc). cbn [rbind Val.truthy negb Val.getitem_0].
  rewrite !py_in_dict, Hct. cbn [rbind negb].
  rewrite (getitem_key_dict rt _ _ _ Hct). cbn [rbind].
  rewrite !py_in_dict, Hp. cbn [rbind negb].
  rewrite (getitem_key_dict rt _ _ _ Hp). cbn [rbind Val.truthy negb Val.getitem_0].
  rewrite (getitem_key_dict rt _ _ _ Ht). cbn [rbind Val.truthy].
  destruct text as [|ch text]; [contradiction|]. reflexivity.
Qed.

Lemma gemini_text_path_is_trimmed_witness :
  Gemini.extract_translation Scenario.rt
    (PDict [(u "candidates",
             PList [PDict [(u "content",
                            PDict [(u "parts",
                                    PList [PDict [(u "text",
                                                   PStr (u "  こんにちは、世界！  "))]]);
                                   (u "role", PStr (u "model"))]);
                           (u "finishReason", PStr (u "STOP"))]]);
            (u "usageMetadata", PDict [])])
  = Ok (u "こんにちは、世界！").
Proof.
  rewrite (gemini_text_path_is_trimmed Scenario.rt _
             [(u "content",
               PDict [(u "parts",
                       PList [PDict [(u "text", PStr (u "  こんにちは、世界！  "))]]);
                      (u "role", PStr (u "model"))]);
              (u "finishReason", PStr (u "STOP"))]
             [(u "parts",
               PList [PDict [(u "text", PStr (u "  こんにちは、世界！  "))]]);
              (u "role", PStr (u "model"))]
             [(u "text", PStr (u "  こんにちは、世界！  "))] [] []
             (u "  こんにちは、世界！  "));
    [vm_compute; reflexivity | vm_compute; reflexivity | vm_compute; reflexivity
     | vm_compute; reflexivity | vm_compute; reflexivity | vm_compute; reflexivity
     | vm_compute; discriminate].
Defined.

(** X9.  A first part without a ["text"] member is not the "no result" error:
    the look-up raises [KeyError], and what leaves the classifier is that
    interpreter error. *)
Theorem gemini_missing_text_member_is_a_key_error
        (rt : PyRuntime) (d c0 ct p0 : list (pystr * pyval))
        (cs ps : list pyval) :
  Val.lookup_key (u "error") d = None ->
  Val.lookup_key (u "candidates") d = Some (PList (PDict c0 :: cs)) ->
  Val.lookup_key (u "content") c0 = Some (PDict ct) ->
  Val.lookup_key (u "parts") ct = Some (PList (PDict p0 :: ps)) ->
  Val.lookup_key (u "text") p0 = None ->
  Gemini.extract_translation rt (PDict d)
  = Raise (OtherException (str_runtime_error rt (KeyError (PStr (u "text"))))).
Proof.
  intros He Hc Hct Hp Ht.
  unfold Gemini.extract_translation, Gemini.result_missing.
  rewrite !py_in_dict, He, Hc. cbn [rbind negb].
  rewrite (getitem_key_dict rt _ _ _ Hc). cbn [rbind Val.truthy negb Val.getitem_0].
  rewrite !py_in_dict, Hct. cbn [rbind negb].
  rewrite (getitem_key_dict rt _ _ _ Hct). cbn [rbind].
  rewrite !py_in_dict, Hp. cbn [rbind negb].
  rewrite (getitem_key_dict rt _ _ _ Hp). cbn [rbind Val.truthy negb Val.getitem_0].
  unfold Val.getitem_key. rewrite Ht. reflexivity.
Qed.

Lemma gemini_missing_text_member_is_a_key_error_witness :
  Gemini.extract_translation Scenario.rt
    (PDict [(u "candidates",
             PList [PDict [(u "content",
                            PDict [(u "parts",
                                    PList [PDict [(u "inlineData", PDict [])]])])]])])
  = Raise (OtherException (u "<interpreter error>")).
Proof.
  rewrite (gemini_missing_text_member_is_a_key_error Scenario.rt _
             [(u "content",
               PDict [(u "parts", PList [PDict [(u "inlineData", PDict [])]])])]
             [(u "parts", PList [PDict [(u "inlineData", PDict [])]])]
             [(u "inlineData", PDict [])] [] []);
    [reflexivity | vm_compute; reflexivity | vm_compute; reflexivity
     | vm_compute; reflexivity | vm_compute; reflexivity | vm_compute; reflexivity].
Defined.

(** ** translate_gemini.py: [run] and its helpers *)

(** A text that is encoded comes back as it is. *)
Lemma encode_utf8_ok (text payload : pystr) :
  encode_utf8 text = Ok payload -> payload = text.
Proof.
  unfold encode_utf8. destruct (encode_from 0 text); [discriminate|].
  intros [= <-]. reflexivity.
Qed.

(** The encoding error is a [ValueError], not a [SubprocessError]. *)
Lemma encode_utf8_raises (text : pystr) (e : exn) :
  encode_utf8 text = Raise e -> exists m, e = ValueError m.
Proof.
  unfold encode_utf8.
  assert (H : forall pos e0, encode_from pos text = Some e0 ->
                             exists m, e0 = ValueError m).
  { induction text as [|c rest IH]; intros pos e0; cbn [encode_from];
      [discriminate|].
    destruct (is_surrogate c); [intros [= <-]; eauto|apply IH]. }
  destruct (encode_from 0 text) as [e0|] eqn:He; [|discriminate].
  intros [= <-]. exact (H _ _ He).
Qed.

(** The codec's messages, for one surrogate and for a run of them. *)
Example encode_utf8_lone_surrogate :
  encode_utf8 (u "ab" ++ [55296%N] ++ u "c")
  = Raise (ValueError
             (u "'utf-8' codec can't encode character '\ud800' in position 2: surrogates not allowed")).
Proof. vm_compute. reflexivity. Qed.

Example encode_utf8_surrogate_run :
  encode_utf8 ([57343; 55296; 56319]%N ++ u "z" ++ [56320%N])
  = Raise (ValueError
             (u "'utf-8' codec can't encode characters in position 0-2: surrogates not allowed")).
Proof. vm_compute. reflexivity. Qed.

Example encode_utf8_plain :
  encode_utf8 (u "Translation result") = Ok (u "Translation result").
Proof. vm_compute. reflexivity. Qed.

(** [_copy_to_clipboard] in normal form: a text that cannot be encoded
    raises before pbcopy is started; otherwise pbcopy is run once and a
    non-zero exit status of it (turned into [CalledProcessError] by
    [check=True]) and every other [SubprocessError] are swallowed. *)
Lemma copy_to_clipboard_cases (w : world) (pbcopy text : pystr) (s : state) :
  let s1 := {| now := now s + duration w (OpRun [pbcopy]);
               trace := trace s ++ [EvRun [pbcopy] (Some text) (now s)
                                      (now s + duration w (OpRun [pbcopy]))] |} in
  _copy_to_clipboard pbcopy text w s
  = match encode_utf8 text with
    | Raise e => (Raise e, s)
    | Ok _ =>
      (match subprocess_outcome w [pbcopy] with
       | Ok _ => Ok tt
       | Raise e => if is_SubprocessError e then Ok tt else Raise e
       end, s1)
    end.
Proof.
  destruct s as [t tr]. intros s1. unfold _copy_to_clipboard. run_monad.
  destruct (encode_utf8 text) as [payload|e0] eqn:He.
  - apply encode_utf8_ok in He as ->.
    destruct (subprocess_outcome w [pbcopy]) as [r|e].
    + destruct (decide (returncode r = 0)); reflexivity.
    + destruct (is_SubprocessError e); reflexivity.
  - destruct (encode_utf8_raises _ _ He) as [m ->]. reflexivity.
Qed.

Lemma show_dialog_trace (w : world) (message title : pystr) (s : state) :
  exists events,
    trace (snd (_show_dialog message title w s)) = trace s ++ events
    /\ forall input a b, EvRun [u "pbcopy"] input a b ∉ events.
Proof.
  rewrite show_dialog_cases. cbv zeta.
  assert (Hd : forall input a b a' b',
             EvRun [u "pbcopy"] input a b
             <> EvRun [u "osascript"; u "-e"; dialog_script message title] None a' b').
  { intros input a b a' b' H.
    apply (f_equal (fun ev => match ev with
                              | EvRun argv _ _ _ => length argv
                              | _ => 0%nat
                              end)) in H. discriminate H. }
  destruct (subprocess_outcome w _) as [r|e].
  - eexists. split; [reflexivity|]. intros input a b Hin.
    apply list_elem_of_singleton in Hin. exact (Hd _ _ _ _ _ Hin).
  - destruct (is_SubprocessError e); cbn [snd trace after_run].
    + rewrite <- app_assoc. eexists. split; [reflexivity|]. intros input a b Hin.
      apply elem_of_app in Hin as [Hin|Hin]; apply list_elem_of_singleton in Hin.
      * exact (Hd _ _ _ _ _ Hin).
      * discriminate Hin.
    + eexists. split; [reflexivity|]. intros input a b Hin.
      apply list_elem_of_singleton in Hin. exact (Hd _ _ _ _ _ Hin).
Qed.

Lemma gemini_error_dialogs_return_false (w : world) (e : exn) (st : state) :
  fst ((if is_ValueError e
        then bind (_show_dialog (str_exn e) (u "エラー")) (fun _ => ret false)
        else bind (_show_dialog (u "予期しないエラーが発生しました: " ++ str_exn e)
                                (u "エラー")) (fun _ => ret false)) w st)
  <> Ok true.
Proof.
  destruct (is_ValueError e); unfold bind, ret;
    destruct (_show_dialog _ _ w st) as [[[]|e1] s3]; discriminate.
Qed.

(** A translation that cannot be encoded (a lone surrogate that the
    response carried as an escape) is not copied: pbcopy is not started and
    [run] goes on as for a failed translation, showing the codec's message
    in the error dialog. *)
Lemma gemini_run_unencodable_translation
      (rt : PyRuntime) (w : world) (self : Gemini.QuickTranslator)
      (input txt : pystr) (el : Z) (s s1 : state) (e : exn) :
  input <> [] ->
  Gemini.translate_with_api rt self input w s = (Ok (txt, el), s1) ->
  encode_utf8 txt = Raise e ->
  Gemini.run rt self input w s
  = bind (_show_dialog (str_exn e) (u "エラー")) (fun _ => ret false) w s1.
Proof.
  intros Hne Ht He. destruct input as [|c input]; [contradiction|].
  unfold Gemini.run. cbn [nonempty negb].
  unfold try_except at 1. unfold bind at 1. rewrite Ht.
  unfold bind at 1. rewrite copy_to_clipboard_cases. cbv zeta. rewrite He.
  destruct (encode_utf8_raises _ _ He) as [m ->]. reflexivity.
Qed.

(** X10.  When [run] returns [True], the translation call succeeded, its text
    was handed to pbcopy right after the call, and the last thing [run]
    did was to print that same text. *)
Theorem gemini_run_true_means_copied_and_printed
        (rt : PyRuntime) (w : world) (self : Gemini.QuickTranslator)
        (input : pystr) (s s' : state) :
  Gemini.run rt self input w s = (Ok true, s') ->
  exists txt el s1 events,
    Gemini.translate_with_api rt self input w s = (Ok (txt, el), s1)
    /\ trace s'
       = trace s1 ++ EvRun [u "pbcopy"] (Some txt) (now s1)
                       (now s1 + duration w (OpRun [u "pbcopy"]))
                  :: events ++ [EvStdout txt].
Proof.
  destruct input as [|c input].
  { intros H. destruct (gemini_run_empty rt w self s) as [_ [Hf|(e & Hf & _)]];
      rewrite H in Hf; discriminate Hf. }
  unfold Gemini.run. cbn [nonempty negb].
  unfold try_except at 1. unfold bind at 1.
  destruct (Gemini.translate_with_api rt self (c :: input) w s) as [[[txt el]|e] s1].
  2:{ intros H. exfalso. apply (gemini_error_dialogs_return_false w e s1).
      exact (f_equal fst H). }
  unfold bind at 1. rewrite copy_to_clipboard_cases. cbv zeta.
  destruct (encode_utf8 txt) as [payload|e].
  2:{ intros H. exfalso. apply (gemini_error_dialogs_return_false w e s1).
      exact (f_equal fst H). }
  set (s2 := {| now := now s1 + duration w (OpRun [u "pbcopy"]); trace := _ |}).
  assert (Hclip : (match subprocess_outcome w [u "pbcopy"] with
                   | Ok _ => Ok tt
                   | Raise e => if is_SubprocessError e then Ok tt else Raise e
                   end = Ok tt)
                  \/ exists e, match subprocess_outcome w [u "pbcopy"] with
                               | Ok _ => Ok tt
                               | Raise e => if is_SubprocessError e then Ok tt else Raise e
                               end = Raise e).
  { destruct (subprocess_outcome w [u "pbcopy"]) as [r|e]; [left; reflexivity|].
    destruct (is_SubprocessError e); [left; reflexivity|right; eauto]. }
  destruct Hclip as [->|[e ->]].
  2:{ intros H. exfalso. apply (gemini_error_dialogs_return_false w e s2).
      exact (f_equal fst H). }
  run_steps.
  match goal with
  | |- context [_show_dialog ?m ?t w s2] =>
    destruct (show_dialog_trace w m t s2) as (events & Hev & _);
      destruct (_show_dialog m t w s2) as [[[]|e] s3]
  end.
  - intros [= <-]. exists txt, el, s1, events. split; [reflexivity|].
    cbn [snd trace] in *. rewrite Hev. subst s2. cbn [trace].
    rewrite <- !app_assoc. reflexivity.
  - intros H. exfalso. apply (gemini_error_dialogs_return_false w e s3).
    exact (f_equal fst H).
Qed.

Lemma gemini_run_true_means_copied_and_printed_witness :
  let w := Scenario.world_header_ok
             (Scenario.body_with_text (u "Translation result")) in
  exists txt el s1 events,
    Gemini.translate_with_api Scenario.rt Scenario.session (u "Hello") w
      (init_state 100) = (Ok (txt, el), s1)
    /\ [EvTempFile (Gemini.json_data (u "Hello")) 107 108;
        EvRun (Gemini.curl_cmd_header Scenario.key Scenario.tmp) None 108 110;
        EvUnlink Scenario.tmp;
        EvRun [u "pbcopy"] (Some (u "Translation result")) 121 121;
        EvRun [u "osascript"; u "-e";
               dialog_script
                 (u "Translation result" ++ nl ++ nl ++ u "翻訳API時間: 3.00秒"
                    ++ nl ++ u "全体実行時間: 121.00秒") (u "翻訳結果")]
              None 121 121;
        EvStdout (u "Translation result")]
       = trace s1 ++ EvRun [u "pbcopy"] (Some txt) (now s1)
                       (now s1 + duration w (OpRun [u "pbcopy"]))
                  :: events ++ [EvStdout txt].
Proof.
  intros w.
  apply (gemini_run_true_means_copied_and_printed Scenario.rt w Scenario.session
           (u "Hello") (init_state 100)
           {| now := 121;
              trace :=
                [EvTempFile (Gemini.json_data (u "Hello")) 107 108;
                 EvRun (Gemini.curl_cmd_header Scenario.key Scenario.tmp) None 108 110;
                 EvUnlink Scenario.tmp;
                 EvRun [u "pbcopy"] (Some (u "Translation result")) 121 121;
                 EvRun [u "osascript"; u "-e";
                        dialog_script
                          (u "Translation result" ++ nl ++ nl
                             ++ u "翻訳API時間: 3.00秒" ++ nl
                             ++ u "全体実行時間: 121.00秒") (u "翻訳結果")]
                       None 121 121;
                 EvStdout (u "Translation result")] |}).
  vm_compute. reflexivity.
Defined.

(** X11.  When the translation call fails, [run] does not return [True], does
    not run pbcopy and prints no translation.  All it adds to what the
    call did is the error dialog, showing the message of the error, and,
    only when the dialog process failed with a [SubprocessError], the line
    printed in its place. *)
Theorem gemini_run_failure_leaves_clipboard_alone
        (rt : PyRuntime) (w : world) (self : Gemini.QuickTranslator)
        (input : pystr) (s s1 : state) (e : exn) :
  input <> [] ->
  Gemini.translate_with_api rt self input w s = (Raise e, s1) ->
  let message :=
    if is_ValueError e then str_exn e
    else u "予期しないエラーが発生しました: " ++ str_exn e in
  let dialog := [u "osascript"; u "-e"; dialog_script message (u "エラー")] in
  let events :=
    EvRun dialog None (now s1) (now s1 + duration w (OpRun dialog))
    :: match subprocess_outcome w dialog with
       | Ok _ => []
       | Raise e' =>
         if is_SubprocessError e'
         then [EvStdout (u "エラー" ++ u ": " ++ message)]
         else []
       end in
  fst (Gemini.run rt self input w s) <> Ok true
  /\ trace (snd (Gemini.run rt self input w s)) = trace s1 ++ events
  /\ forall text a b, EvRun [u "pbcopy"] text a b ∉ events.
Proof.
  intros Hne Ht. destruct input as [|c input]; [contradiction|].
  assert (Hrun : Gemini.run rt self (c :: input) w s
                 = (if is_ValueError e
                    then bind (_show_dialog (str_exn e) (u "エラー"))
                              (fun _ => ret false)
                    else bind (_show_dialog
                                 (u "予期しないエラーが発生しました: " ++ str_exn e)
                                 (u "エラー")) (fun _ => ret false)) w s1).
  { unfold Gemini.run. cbn [nonempty negb].
    unfold try_except at 1. unfold bind at 1. rewrite Ht. reflexivity. }
  intros message dialog events. rewrite Hrun.
  split; [apply gemini_error_dialogs_return_false|].
  assert (Hpb : forall text a b a' b',
             EvRun [u "pbcopy"] text a b <> EvRun dialog None a' b').
  { intros text a b a' b' H.
    apply (f_equal (fun ev => match ev with
                              | EvRun argv _ _ _ => length argv
                              | _ => 0%nat
                              end)) in H. discriminate H. }
  split.
  - assert (Hd : trace (snd (bind (_show_dialog message (u "エラー"))
                                  (fun _ => ret false) w s1))
                 = trace s1 ++ events).
    { unfold bind, ret. rewrite show_dialog_cases. cbv zeta.
      fold dialog. subst events.
      destruct (subprocess_outcome w dialog) as [r|e'];
        [reflexivity|].
      destruct (is_SubprocessError e'); cbn [snd trace after_run];
        rewrite <- ?app_assoc; reflexivity. }
    subst message. destruct (is_ValueError e); exact Hd.
  - intros text a b Hin. subst events.
    apply elem_of_cons in Hin as [Hin|Hin]; [exact (Hpb _ _ _ _ _ Hin)|].
    destruct (subprocess_outcome w dialog) as [r|e'];
      [by apply elem_of_nil in Hin|].
    destruct (is_SubprocessError e'); [|by apply elem_of_nil in Hin].
    apply list_elem_of_singleton in Hin. discriminate Hin.
Qed.

Lemma gemini_run_failure_leaves_clipboard_alone_witness :
  let w := Scenario.world_header_ok (u "Invalid JSON") in
  fst (Gemini.run Scenario.rt Scenario.session (u "Hello") w (init_state 100))
  <> Ok true
  /\ trace (snd (Gemini.run Scenario.rt Scenario.session (u "Hello") w
                   (init_state 100)))
     = [EvTempFile (Gemini.json_data (u "Hello")) 107 108;
        EvRun (Gemini.curl_cmd_header Scenario.key Scenario.tmp) None 108 110;
        EvUnlink Scenario.tmp;
        EvRun [u "osascript"; u "-e";
               dialog_script
                 (u "予期しないエラー: エラー: 無効なJSONレスポンス" ++ nl
                    ++ u "Invalid JSON") (u "エラー")]
              None 121 121].
Proof.
  intros w.
  destruct (gemini_run_failure_leaves_clipboard_alone Scenario.rt w
              Scenario.session (u "Hello") (init_state 100)
              {| now := 121;
                 trace :=
                   [EvTempFile (Gemini.json_data (u "Hello")) 107 108;
                    EvRun (Gemini.curl_cmd_header Scenario.key Scenario.tmp)
                          None 108 110;
                    EvUnlink Scenario.tmp] |}
              (ValueError (u "予期しないエラー: エラー: 無効なJSONレスポンス" ++ nl
                             ++ u "Invalid JSON")))
    as (Hfalse & Htrace & _);
    [vm_compute; discriminate | vm_compute; reflexivity|].
  split; [exact Hfalse|]. rewrite Htrace. vm_compute. reflexivity.
Defined.

(** Replacing a single character is a character-wise substitution. *)
Lemma replace_one_char (c : N) (new s : pystr) :
  replace [c] new s = flat_map (fun x => if (x =? c)%N then new else [x]) s.
Proof.
  unfold replace. induction s as [|x s IH]; [reflexivity|].
  cbn [replace_from startswith flat_map length pred].
  rewrite N.eqb_sym, andb_true_r.
  destruct (x =? c)%N; rewrite IH; reflexivity.
Qed.

Lemma flat_map_twice {A} (f g : A -> list A) (l : list A) :
  flat_map g (flat_map f l) = flat_map (fun x => flat_map g (f x)) l.
Proof.
  induction l as [|x l IH]; [reflexivity|].
  cbn [flat_map]. rewrite flat_map_app, IH. reflexivity.
Qed.

(** X12.  [_escape_for_dialog] acts on each character by itself: a double
    quote becomes backslash-quote, a line feed becomes backslash-n, every
    other character (a backslash too) stays.  The result holds no line
    feed. *)
Theorem escape_for_dialog_is_characterwise (text : pystr) :
  _escape_for_dialog text
  = flat_map (fun ch => if (ch =? 34)%N then [92; 34]%N
                        else if (ch =? 10)%N then [92; 110]%N
                        else [ch]) text
  /\ 10%N ∉ _escape_for_dialog text.
Proof.
  assert (H : _escape_for_dialog text
              = flat_map (fun ch => if (ch =? 34)%N then [92; 34]%N
                                    else if (ch =? 10)%N then [92; 110]%N
                                    else [ch]) text).
  { unfold _escape_for_dialog. change nl with [10%N].
    rewrite !replace_one_char, flat_map_twice.
    induction text as [|ch text IH]; [reflexivity|].
    cbn [flat_map]. rewrite IH. f_equal.
    destruct (N.eqb_spec ch 34) as [->|H34]; [reflexivity|].
    cbn [flat_map]. rewrite app_nil_r. reflexivity. }
  split; [exact H|]. rewrite H. intros Hin.
  apply list_elem_of_In in Hin. apply in_flat_map in Hin.
  destruct Hin as (ch & _ & Hin).
  destruct (ch =? 34)%N.
  - destruct Hin as [Hin|[Hin|[]]]; discriminate Hin.
  - destruct (ch =? 10)%N eqn:E10.
    + destruct Hin as [Hin|[Hin|[]]]; discriminate Hin.
    + destruct Hin as [Hin|[]]. subst ch. discriminate E10.
Qed.

(** ** The credential resolvers *)

(** X13.  The shell comes first: when the login shell prints anything but
    white space, both resolvers return that text trimmed, whatever the
    exit status of the shell and whatever the process environment
    holds. *)
Theorem shell_value_takes_precedence (w : world) (s : state) (r : CompletedProcess) :
  subprocess_outcome w (key_probe w (u "GEMINI_API_KEY")) = Ok r ->
  strip (stdout r) <> [] ->
  fst (Gemini._get_api_key w s) = Ok (Some (strip (stdout r)))
  /\ fst (Benchmark._get_api_key (u "GEMINI_API_KEY") w s)
     = Ok (Some (strip (stdout r))).
Proof.
  intros Hp Hne.
  rewrite gemini_get_api_key_cases, benchmark_get_api_key_cases. cbv zeta.
  cbn [fst]. rewrite Hp.
  destruct (strip (stdout r)) as [|c k]; [contradiction|]. split; reflexivity.
Qed.

Lemma shell_value_takes_precedence_witness :
  let w := Scenario.mk_world {[ u "GEMINI_API_KEY" := u "env-key" ]}
             (Scenario.completed 0 [] []) (Scenario.completed 0 [] [])
             (Scenario.completed 3 (u " shell-key" ++ nl) [])
             Scenario.durations [] [] in
  fst (Gemini._get_api_key w (init_state 0)) = Ok (Some (u "shell-key"))
  /\ fst (Benchmark._get_api_key (u "GEMINI_API_KEY") w (init_state 0))
     = Ok (Some (u "shell-key")).
Proof.
  intros w.
  destruct (shell_value_takes_precedence w (init_state 0)
              {| returncode := 3; stdout := u " shell-key" ++ nl; stderr := [] |})
    as [Hg Hb]; [vm_compute; reflexivity | vm_compute; discriminate |].
  split; [rewrite Hg | rewrite Hb]; vm_compute; reflexivity.
Defined.

(** X14.  The benchmark's resolver never raises, whatever the shell does. *)
Theorem benchmark_resolver_never_raises (w : world) (name : pystr) (s : state) :
  exists k, fst (Benchmark._get_api_key name w s) = Ok k.
Proof. rewrite benchmark_get_api_key_cases. cbv zeta. eexists. reflexivity. Qed.

(** X15.  The Gemini resolver catches [TimeoutExpired] and [SubprocessError]
    only: any other error of the probe (a shell that cannot be started)
    leaves it, and with it the constructor and [main]. *)
Theorem gemini_resolver_lets_other_errors_through
        (rt : PyRuntime) (w : world) (s : state) (e : exn) :
  subprocess_outcome w (key_probe w (u "GEMINI_API_KEY")) = Raise e ->
  is_SubprocessError e = false ->
  fst (Gemini._get_api_key w s) = Raise e
  /\ fst (Gemini.__init__ w s) = Raise e
  /\ fst (Gemini.main rt w s) = Raise e.
Proof.
  intros Hp He.
  assert (Hk : forall st, fst (Gemini._get_api_key w st) = Raise e).
  { intros st. rewrite gemini_get_api_key_cases. cbv zeta. cbn [fst].
    rewrite Hp, He. reflexivity. }
  split; [apply Hk|].
  assert (Hi : forall st, fst (Gemini.__init__ w st) = Raise e).
  { intros st. unfold Gemini.__init__. run_steps.
    specialize (Hk st). destruct (Gemini._get_api_key w st) as [[k|e0] s1];
      cbn [fst] in Hk; [discriminate|]. injection Hk as ->. reflexivity. }
  split; [apply Hi|].
  unfold Gemini.main. run_steps.
  specialize (Hi s). destruct (Gemini.__init__ w s) as [[tr|e0] s1];
    cbn [fst] in Hi; [discriminate|]. injection Hi as ->. reflexivity.
Qed.

Lemma gemini_resolver_lets_other_errors_through_witness :
  let w := Scenario.mk_world ∅ (Scenario.completed 0 [] [])
             (Scenario.completed 0 [] [])
             (Raise (FileNotFoundError (u "No such file or directory")))
             Scenario.durations [] [] in
  exit_status (fst (Gemini.main Scenario.rt w (init_state 0))) = 1
  /\ fst (Gemini.main Scenario.rt w (init_state 0))
     = Raise (FileNotFoundError (u "No such file or directory")).
Proof.
  intros w.
  destruct (gemini_resolver_lets_other_errors_through Scenario.rt w (init_state 0)
              (FileNotFoundError (u "No such file or directory")))
    as (_ & _ & Hm); [vm_compute; reflexivity | reflexivity |].
  rewrite Hm. split; reflexivity.
Defined.

(** ** translate_plamo.py: the executable locator *)

Lemma filter_none {A} (P : A -> Prop) `{forall x, Decision (P x)} (l : list A) :
  (forall x, x ∈ l -> ~ P x) -> filter P l = [].
Proof.
  induction l as [|x l IH]; intros Hall; [reflexivity|].
  rewrite filter_cons_False by (apply Hall; by apply elem_of_cons; left).
  apply IH. intros y Hy. apply Hall. by apply elem_of_cons; right.
Qed.

(** X16.  Augmenting twice is augmenting once. *)
Theorem ensure_common_paths_idempotent (w : world) (l : list pystr) :
  Plamo._ensure_common_paths w (Plamo._ensure_common_paths w l)
  = Plamo._ensure_common_paths w l.
Proof.
  rewrite (ensure_common_paths_spec w (Plamo._ensure_common_paths w l)).
  rewrite filter_none; [reflexivity|].
  intros p Hp [Hnin Hdir]. apply Hnin.
  rewrite ensure_common_paths_spec. apply elem_of_app.
  destruct (decide (p ∈ l)) as [Hl|Hl]; [right; exact Hl|].
  left. apply list_elem_of_filter. auto.
Qed.

Section ParsePath.

Lemma drop_spaces_suffix (s : pystr) :
  exists pre, s = pre ++ drop_spaces s /\ forallb isspace pre = true.
Proof.
  induction s as [|c s (pre & Hs & Hpre)]; [exists []; split; reflexivity|].
  cbn [drop_spaces]. destruct (isspace c) eqn:Hc.
  - exists (c :: pre). split; [cbn; congruence|]. cbn. rewrite Hc. exact Hpre.
  - exists []. split; reflexivity.
Qed.

Lemma drop_spaces_starts_clean (s : pystr) : starts_clean (drop_spaces s).
Proof.
  induction s as [|c s IH]; [exact I|].
  cbn [drop_spaces]. destruct (isspace c) eqn:Hc; [exact IH|exact Hc].
Qed.

Lemma drop_spaces_clean (s : pystr) : starts_clean s -> drop_spaces s = s.
Proof. destruct s as [|c s]; [reflexivity|]. cbn. intros ->. reflexivity. Qed.

Lemma starts_clean_app (a b : pystr) :
  a <> [] -> starts_clean (a ++ b) -> starts_clean a.
Proof. destruct a as [|c a]; [contradiction|]. intros _ H. exact H. Qed.

(** What [strip] returns begins and ends with a character that is not
    white space, so trimming it again changes nothing. *)
Lemma strip_idempotent (s : pystr) : strip (strip s) = strip s.
Proof.
  unfold strip, rstrip, lstrip.
  set (t := drop_spaces s).
  assert (Ht : starts_clean t) by apply drop_spaces_starts_clean.
  set (v := drop_spaces (rev t)).
  assert (Hv : starts_clean v) by apply drop_spaces_starts_clean.
  assert (Hrv : starts_clean (rev v)).
  { destruct (drop_spaces_suffix (rev t)) as (pre & Hs & _). fold v in Hs.
    destruct v as [|c v'] eqn:Ev; [exact I|].
    apply (starts_clean_app _ (rev pre)).
    - intros H. apply (f_equal (@length N)) in H. rewrite length_rev in H.
      discriminate H.
    - rewrite <- rev_app_distr, <- Hs, rev_involutive. exact Ht. }
  rewrite (drop_spaces_clean (rev v) Hrv), rev_involutive.
  rewrite (drop_spaces_clean v Hv). reflexivity.
Qed.

Lemma drop_spaces_subset (s : pystr) (x : N) : x ∈ drop_spaces s -> x ∈ s.
Proof.
  destruct (drop_spaces_suffix s) as (pre & Hs & _). intros Hx.
  rewrite Hs. apply elem_of_app. right. exact Hx.
Qed.

Lemma strip_subset (s : pystr) (x : N) : x ∈ strip s -> x ∈ s.
Proof.
  unfold strip, rstrip, lstrip. intros Hx.
  apply list_elem_of_In, in_rev, list_elem_of_In in Hx.
  apply drop_spaces_subset in Hx.
  apply list_elem_of_In, in_rev, list_elem_of_In in Hx.
  apply drop_spaces_subset. exact Hx.
Qed.

Lemma split_pieces_lack_separator (sep : N) (s p : pystr) :
  p ∈ split sep s -> sep ∉ p.
Proof.
  revert p. induction s as [|c s IH]; intros p Hp.
  - apply list_elem_of_singleton in Hp as ->. apply not_elem_of_nil.
  - cbn [split] in Hp. destruct (N.eqb_spec c sep) as [Heq|Hne].
    + apply elem_of_cons in Hp as [->|Hp]; [apply not_elem_of_nil|auto].
    + destruct (split sep s) as [|q qs] eqn:Hsplit.
      * apply list_elem_of_singleton in Hp as ->.
        intros Hin. apply list_elem_of_singleton in Hin. congruence.
      * apply elem_of_cons in Hp as [->|Hp].
        -- intros Hin. apply elem_of_cons in Hin as [Hin|Hin]; [congruence|].
           apply (IH q); [by apply elem_of_cons; left|exact Hin].
        -- apply IH. by apply elem_of_cons; right.
Qed.

End ParsePath.

(** X17.  Every directory read from the shell's answer is a non-empty string
    without surrounding white space and without the separator in it. *)
Theorem parse_path_entries_are_clean (sep : N) (path_output p : pystr) :
  p ∈ Plamo.parse_path sep path_output ->
  p <> [] /\ strip p = p /\ sep ∉ p.
Proof.
  unfold Plamo.parse_path. intros Hp.
  apply list_elem_of_In, in_map_iff in Hp. destruct Hp as (q & <- & Hq).
  apply filter_In in Hq as [Hq Hne]. split; [|split].
  - destruct (strip q); [discriminate Hne|discriminate].
  - apply strip_idempotent.
  - intros Hin. apply strip_subset in Hin.
    apply (split_pieces_lack_separator sep path_output q);
      [by apply list_elem_of_In|exact Hin].
Qed.

Lemma parse_path_entries_are_clean_witness :
  Plamo.parse_path 58 (u "/usr/local/bin: /usr/bin ::/bin")
  = [u "/usr/local/bin"; u "/usr/bin"; u "/bin"]
  /\ u "/usr/bin" <> [] /\ strip (u "/usr/bin") = u "/usr/bin"
  /\ 58%N ∉ u "/usr/bin".
Proof.
  split; [vm_compute; reflexivity|].
  apply (parse_path_entries_are_clean 58 (u "/usr/local/bin: /usr/bin ::/bin")).
  apply list_elem_of_In. vm_compute. tauto.
Defined.

Lemma scan_some_spec (w : world) (dirs : list pystr) (p : pystr) :
  Plamo.scan w dirs = Some p ->
  exists pre d post,
    dirs = pre ++ d :: post
    /\ p = path_join d (u "plamo-translate")
    /\ isfile w p = true /\ access_X_OK w p = true
    /\ forall d', d' ∈ pre ->
         Plamo.is_executable w (path_join d' (u "plamo-translate")) = false.
Proof.
  induction dirs as [|d dirs IH]; [discriminate|].
  cbn [Plamo.scan]. destruct (Plamo.is_executable w (Plamo.candidate d)) eqn:Hx.
  - intros [= <-]. exists [], d, dirs.
    unfold Plamo.is_executable in Hx. apply andb_true_iff in Hx as [Hf Ha].
    repeat split; auto. intros d' Hd'. by apply elem_of_nil in Hd'.
  - intros Hs. destruct (IH Hs) as (pre & d0 & post & -> & Hp & Hf & Ha & Hpre).
    exists (d :: pre), d0, post. repeat split; auto.
    intros d' Hd'. apply elem_of_cons in Hd' as [->|Hd']; [exact Hx|auto].
Qed.

(** X18.  The scan stops at the first hit: a path it returns is the candidate
    of a directory of the list, it is an executable file, and no
    directory earlier in the list has an executable candidate. *)
Theorem scan_returns_first_executable (w : world) (dirs : list pystr) (p : pystr) :
  Plamo.scan w dirs = Some p ->
  exists pre d post,
    dirs = pre ++ d :: post
    /\ p = path_join d (u "plamo-translate")
    /\ isfile w p = true /\ access_X_OK w p = true
    /\ forall d', d' ∈ pre ->
         Plamo.is_executable w (path_join d' (u "plamo-translate")) = false.
Proof. apply scan_some_spec. Qed.

Lemma scan_returns_first_executable_witness :
  let w := Scenario.world_paths (Scenario.completed 0 [] []) []
             [u "/usr/local/bin/plamo-translate"; u "/bin/plamo-translate"] in
  exists pre d post,
    [u "/usr/bin"; u "/usr/local/bin"; u "/bin"] = pre ++ d :: post
    /\ u "/usr/local/bin/plamo-translate" = path_join d (u "plamo-translate")
    /\ isfile w (u "/usr/local/bin/plamo-translate") = true
    /\ access_X_OK w (u "/usr/local/bin/plamo-translate") = true
    /\ forall d', d' ∈ pre ->
         Plamo.is_executable w (path_join d' (u "plamo-translate")) = false.
Proof.
  intros w.
  apply (scan_returns_first_executable w [u "/usr/bin"; u "/usr/local/bin"; u "/bin"]).
  vm_compute. reflexivity.
Defined.

(** X19.  The scan finds nothing exactly when no directory of the list has an
    executable candidate. *)
Theorem scan_none_iff_nothing_executable (w : world) (dirs : list pystr) :
  Plamo.scan w dirs = None
  <-> forall d, d ∈ dirs ->
        Plamo.is_executable w (path_join d (u "plamo-translate")) = false.
Proof.
  induction dirs as [|d dirs IH].
  - split; [intros _ d Hd; by apply elem_of_nil in Hd|reflexivity].
  - cbn [Plamo.scan]. unfold Plamo.candidate in *.
    destruct (Plamo.is_executable w (path_join d (u "plamo-translate"))) eqn:Hx.
    + split; [discriminate|]. intros Hall.
      rewrite (Hall d) in Hx by (by apply elem_of_cons; left). discriminate Hx.
    + rewrite IH. split.
      * intros Hall d' Hd'. apply elem_of_cons in Hd' as [->|Hd']; auto.
      * intros Hall d' Hd'. apply Hall. by apply elem_of_cons; right.
Qed.

Section Locator.
Variable w : world.

(** Whatever the locator returns, the path is what a scan of the returned
    list gives. *)
Lemma find_plamo_translate_scans (s : state) (o : option pystr) (l : list pystr) :
  fst (Plamo._find_plamo_translate w s) = Ok (o, l) -> o = Plamo.scan w l.
Proof.
  unfold Plamo._find_plamo_translate, Plamo._search_via_shell. run_steps.
  destruct (Plamo._get_path_from_shell _ _ w s) as [[[|d ds]|e] s1];
    cbn [fst]; [intros [= <- <-]; reflexivity | intros [= <- <-]; reflexivity
                | discriminate].
Qed.

(** [_get_path_from_shell] after a probe that succeeded with something to
    parse. *)
Lemma get_path_from_shell_parsed (shell_path shell_name : pystr) (s : state)
      (cp : CompletedProcess) :
  subprocess_outcome w (Plamo.path_probe shell_path shell_name) = Ok cp ->
  returncode cp = 0 ->
  strip (stdout cp) <> [] ->
  fst (Plamo._get_path_from_shell shell_path shell_name w s)
  = Ok (Plamo._ensure_common_paths w
          (Plamo.parse_path (if decide (shell_name = u "fish") then 10%N else 58%N)
                            (strip (stdout cp)))).
Proof.
  intros Hp Hrc Hne. unfold Plamo._get_path_from_shell. run_steps. rewrite Hp.
  destruct (decide (returncode cp <> 0)); [contradiction|].
  destruct (strip (stdout cp)) as [|c out] eqn:Hout; [contradiction|].
  cbn [nonempty negb]. run_steps.
  destruct (decide (shell_name = u "fish"));
    match goal with
    | |- context [decide (?a < ?b)%nat] => destruct (decide (a < b)%nat)
    end; reflexivity.
Qed.

End Locator.

(** X20.  A path the locator returns was verified: it is the candidate of one
    of the directories it reports, and at the time of the search it was a
    file with the executable bit. *)
Theorem located_executable_was_verified
        (w : world) (s : state) (p : pystr) (l : list pystr) :
  fst (Plamo._find_plamo_translate w s) = Ok (Some p, l) ->
  exists d, d ∈ l /\ p = path_join d (u "plamo-translate")
            /\ isfile w p = true /\ access_X_OK w p = true.
Proof.
  intros Hf. apply find_plamo_translate_scans in Hf. symmetry in Hf.
  destruct (scan_some_spec w l p Hf)
    as (pre & d & post & -> & Hp & Hfile & Hacc & _).
  exists d. repeat split; auto. apply elem_of_app. right. by apply elem_of_cons; left.
Qed.

Lemma located_executable_was_verified_witness :
  let w := Scenario.world_paths
             (Scenario.completed 0 (u "/usr/bin:/bin" ++ nl) [])
             [u "/usr/local/bin"] [u "/usr/local/bin/plamo-translate"] in
  fst (Plamo._find_plamo_translate w (init_state 0))
  = Ok (Some (u "/usr/local/bin/plamo-translate"),
        [u "/usr/local/bin"; u "/usr/bin"; u "/bin"])
  /\ exists d, d ∈ [u "/usr/local/bin"; u "/usr/bin"; u "/bin"]
               /\ u "/usr/local/bin/plamo-translate"
                  = path_join d (u "plamo-translate")
               /\ isfile w (u "/usr/local/bin/plamo-translate") = true
               /\ access_X_OK w (u "/usr/local/bin/plamo-translate") = true.
Proof.
  intros w. split; [vm_compute; reflexivity|].
  apply (located_executable_was_verified w (init_state 0)).
  vm_compute. reflexivity.
Defined.

(** X21.  After a probe that exits with status zero and prints something, the
    list the locator reports is the parsed answer of the shell, augmented;
    every important directory that exists on disk is in it, whether or not
    the executable was found. *)
Theorem successful_probe_reports_augmented_path
        (w : world) (s : state) (cp : CompletedProcess) :
  subprocess_outcome w (path_probe_of w) = Ok cp ->
  returncode cp = 0 ->
  strip (stdout cp) <> [] ->
  let shell_name := basename (default (u "/bin/sh") (environ w !! u "SHELL")) in
  let l := Plamo._ensure_common_paths w
             (Plamo.parse_path (if decide (shell_name = u "fish") then 10%N else 58%N)
                               (strip (stdout cp))) in
  fst (Plamo._find_plamo_translate w s) = Ok (Plamo.scan w l, l)
  /\ forall d, d ∈ Plamo.important_paths w -> isdir w d = true -> d ∈ l.
Proof.
  intros Hp Hrc Hne shell_name l. split.
  - pose proof (get_path_from_shell_parsed w
                  (default (u "/bin/sh") (environ w !! u "SHELL")) shell_name s cp
                  Hp Hrc Hne) as Hg.
    fold l in Hg.
    unfold Plamo._find_plamo_translate, Plamo._search_via_shell. run_steps.
    fold shell_name.
    destruct (Plamo._get_path_from_shell _ shell_name w s) as [[l0|e] s1];
      cbn [fst] in Hg; [|discriminate Hg].
    injection Hg as ->. destruct l; reflexivity.
  - intros d Hd Hdir. subst l. rewrite ensure_common_paths_spec.
    apply elem_of_app.
    match goal with
    | |- _ ∈ filter _ _ \/ _ ∈ ?parsed =>
      destruct (decide (d ∈ parsed)) as [Hin|Hnin]; [right; exact Hin|left]
    end.
    apply list_elem_of_filter. auto.
Qed.

Lemma successful_probe_reports_augmented_path_witness :
  let w := Scenario.world_paths
             (Scenario.completed 0 (u "/usr/bin:/bin" ++ nl) [])
             [u "/usr/local/bin"] [] in
  fst (Plamo._find_plamo_translate w (init_state 0))
  = Ok (None, [u "/usr/local/bin"; u "/usr/bin"; u "/bin"]).
Proof.
  intros w.
  destruct (successful_probe_reports_augmented_path w (init_state 0)
              {| returncode := 0; stdout := u "/usr/bin:/bin" ++ nl; stderr := [] |})
    as [Hf _];
    [vm_compute; reflexivity | reflexivity | vm_compute; discriminate |].
  rewrite Hf. vm_compute. reflexivity.
Defined.

(** ** translate_plamo.py: the translation call *)

Section PlamoCall.
Variable w : world.

(** [translate_with_plamo_cli] in normal form, once an executable is
    known. *)
Lemma translate_with_plamo_cli_cases (self : Plamo.PlamoTranslator)
      (text : pystr) (c : N) (exe : pystr) (s : state) :
  Plamo.plamo_path self = Some (c :: exe) ->
  let argv := [c :: exe; u "--input"; text] in
  Plamo.translate_with_plamo_cli self text w s
  = (match subprocess_outcome w argv with
     | Ok r =>
       if decide (returncode r <> 0) then
         Raise (ValueError
                  (Plamo.unexpected_prefix ++ u "plamo-translateエラー: "
                     ++ (if nonempty (stderr r) then stderr r else stdout r)))
       else if nonempty (strip (stdout r))
            then Ok (strip (stdout r), duration w (OpRun argv))
            else Raise (ValueError (Plamo.unexpected_prefix ++ Plamo.msg_empty))
     | Raise (TimeoutExpired _) => Raise (ValueError Plamo.msg_timeout)
     | Raise (SubprocessError m) => Raise (ValueError (u "プロセスエラー: " ++ m))
     | Raise e => Raise (ValueError (Plamo.unexpected_prefix ++ str_exn e))
     end, after_run w argv s).
Proof.
  intros Hp argv. destruct s as [t tr].
  unfold Plamo.translate_with_plamo_cli. rewrite Hp. run_monad. fold argv.
  destruct (subprocess_outcome w argv) as [r|e].
  - destruct (decide (returncode r <> 0)); [reflexivity|].
    destruct (strip (stdout r)) as [|c1 out]; cbn [nonempty negb];
      [reflexivity|].
    unfold after_run. cbn [now trace]. do 3 f_equal. lia.
  - destruct e; reflexivity.
Qed.

End PlamoCall.

(** X22.  A translation the local tool returns is its standard output,
    trimmed and not empty, of a run that exited with status zero; the
    elapsed time is the duration of that one run. *)
Theorem plamo_success_is_trimmed_output
        (w : world) (self : Plamo.PlamoTranslator) (text : pystr) (s : state)
        (txt : pystr) (elapsed : Z) :
  fst (Plamo.translate_with_plamo_cli self text w s) = Ok (txt, elapsed) ->
  exists exe r,
    Plamo.plamo_path self = Some exe
    /\ subprocess_outcome w [exe; u "--input"; text] = Ok r
    /\ returncode r = 0
    /\ txt = strip (stdout r) /\ txt <> []
    /\ elapsed = duration w (OpRun [exe; u "--input"; text]).
Proof.
  intros Hok. pose proof (plamo_success_is_not_empty w self text s txt elapsed Hok) as Hne.
  destruct (Plamo.plamo_path self) as [[|c exe]|] eqn:Hp.
  - unfold Plamo.translate_with_plamo_cli in Hok. rewrite Hp in Hok.
    unfold Plamo._show_plamo_not_found_error in Hok. revert Hok. run_monad.
    destruct (_show_dialog _ _ w _) as [[[]|e] s1]; discriminate.
  - rewrite (translate_with_plamo_cli_cases w self text c exe s Hp) in Hok.
    cbv zeta in Hok. cbn [fst] in Hok.
    exists (c :: exe).
    destruct (subprocess_outcome w [c :: exe; u "--input"; text]) as [r|e].
    + exists r. destruct (decide (returncode r <> 0)) as [|Hrc]; [discriminate|].
      destruct (nonempty (strip (stdout r))); [|discriminate].
      injection Hok as <- <-.
      repeat split; auto. destruct (decide (returncode r = 0)); [auto|contradiction].
    + destruct e; discriminate.
  - unfold Plamo.translate_with_plamo_cli in Hok. rewrite Hp in Hok.
    unfold Plamo._show_plamo_not_found_error in Hok. revert Hok. run_monad.
    destruct (_show_dialog _ _ w _) as [[[]|e] s1]; discriminate.
Qed.

Lemma plamo_success_is_trimmed_output_witness :
  let w := Scenario.world_plamo
             (Scenario.completed 0 (u "  こんにちは" ++ nl) []) in
  exists exe r,
    Plamo.plamo_path Scenario.plamo_session = Some exe
    /\ subprocess_outcome w [exe; u "--input"; u "Hello"] = Ok r
    /\ returncode r = 0
    /\ u "こんにちは" = strip (stdout r) /\ u "こんにちは" <> []
    /\ 4 = duration w (OpRun [exe; u "--input"; u "Hello"]).
Proof.
  intros w.
  apply (plamo_success_is_trimmed_output w Scenario.plamo_session (u "Hello")
           (init_state 0) (u "こんにちは") 4).
  vm_compute. reflexivity.
Defined.

(** X23.  A non-zero exit status of the local tool is reported with the
    tool's standard error, or with its standard output when the standard
    error is empty; the message leaves the call behind the generic
    prefix, and the tool is run once. *)
Theorem plamo_nonzero_exit_reports_stderr_or_stdout
        (w : world) (self : Plamo.PlamoTranslator) (text : pystr) (s : state)
        (exe : pystr) (r : CompletedProcess) :
  Plamo.plamo_path self = Some exe ->
  exe <> [] ->
  subprocess_outcome w [exe; u "--input"; text] = Ok r ->
  returncode r <> 0 ->
  Plamo.translate_with_plamo_cli self text w s
  = (Raise (ValueError
       (u "予期しないエラー: " ++ u "plamo-translateエラー: "
          ++ (if nonempty (stderr r) then stderr r else stdout r))),
     after_run w [exe; u "--input"; text] s).
Proof.
  intros Hp Hne Ho Hrc. destruct exe as [|c exe]; [contradiction|].
  rewrite (translate_with_plamo_cli_cases w self text c exe s Hp). cbv zeta.
  rewrite Ho. destruct (decide (returncode r <> 0)); [reflexivity|contradiction].
Qed.

Lemma plamo_nonzero_exit_reports_stderr_or_stdout_witness :
  fst (Plamo.translate_with_plamo_cli Scenario.plamo_session (u "Hello")
         (Scenario.world_plamo (Scenario.completed 2 (u "usage: ...") []))
         (init_state 0))
  = Raise (ValueError (u "予期しないエラー: plamo-translateエラー: usage: ...")).
Proof.
  rewrite (plamo_nonzero_exit_reports_stderr_or_stdout _ Scenario.plamo_session
             (u "Hello") (init_state 0) (u "/usr/local/bin/plamo-translate")
             {| returncode := 2; stdout := u "usage: ..."; stderr := [] |});
    [vm_compute; reflexivity | reflexivity | vm_compute; discriminate
     | vm_compute; reflexivity | discriminate].
Defined.

(** X24.  Without an executable the call never starts the tool: it shows the
    "not found" dialog, writes the same message to the standard error, and
    raises. *)
Theorem plamo_missing_executable_runs_nothing
        (w : world) (self : Plamo.PlamoTranslator) (text : pystr) (s : state)
        (r : CompletedProcess) :
  Plamo.plamo_path self = None \/ Plamo.plamo_path self = Some [] ->
  let shell := default (u "unknown") (environ w !! u "SHELL") in
  let message := Plamo.not_found_msg shell (Plamo.path_list self) in
  let dialog := [u "osascript"; u "-e"; dialog_script message (u "エラー")] in
  subprocess_outcome w dialog = Ok r ->
  Plamo.translate_with_plamo_cli self text w s
  = (Raise (ValueError (u "plamo-translateが見つかりません")),
     {| now := now s + duration w (OpRun dialog);
        trace := trace s
                   ++ [EvRun dialog None (now s) (now s + duration w (OpRun dialog));
                       EvStderr (u "エラー: " ++ replace (u "\n") nl message)] |}).
Proof.
  intros Hp shell message dialog Hd. destruct s as [t tr].
  assert (Hbody : (bind (Plamo._show_plamo_not_found_error (Plamo.path_list self))
                        (fun _ => @raise (pystr * Z) (ValueError Plamo.msg_not_found))) w
                    {| now := t; trace := tr |}
                  = (Raise (ValueError (u "plamo-translateが見つかりません")),
                     {| now := t + duration w (OpRun dialog);
                        trace := tr ++ [EvRun dialog None t (t + duration w (OpRun dialog));
                                        EvStderr (u "エラー: "
                                                    ++ replace (u "\n") nl message)] |})).
  { unfold Plamo._show_plamo_not_found_error. run_steps.
    fold shell. fold message. rewrite show_dialog_cases. cbv zeta.
    fold dialog. rewrite Hd. cbn [after_run now trace].
    rewrite <- app_assoc. reflexivity. }
  unfold Plamo.translate_with_plamo_cli.
  destruct Hp as [Hp|Hp]; rewrite Hp; exact Hbody.
Qed.

Lemma plamo_missing_executable_runs_nothing_witness :
  fst (Plamo.translate_with_plamo_cli
         {| Plamo.program_start_time := 0; Plamo.plamo_path := None;
            Plamo.path_list := [] |}
         (u "Hello") (Scenario.world_plamo (Scenario.completed 0 [] []))
         (init_state 0))
  = Raise (ValueError (u "plamo-translateが見つかりません")).
Proof.
  rewrite (plamo_missing_executable_runs_nothing _
             {| Plamo.program_start_time := 0; Plamo.plamo_path := None;
                Plamo.path_list := [] |}
             (u "Hello") (init_state 0)
             {| returncode := 0; stdout := []; stderr := [] |});
    [reflexivity | left; reflexivity | vm_compute; reflexivity].
Defined.

(** X25.  [run] checks for the executable before it calls the translation:
    without one, and with a text to translate, it shows the "not found"
    dialog once, starts nothing else and returns [False]. *)
Theorem plamo_run_without_executable
        (rt : PyRuntime) (w : world) (self : Plamo.PlamoTranslator)
        (input : pystr) (s : state) (r : CompletedProcess) :
  input <> [] ->
  Plamo.plamo_path self = None \/ Plamo.plamo_path self = Some [] ->
  let shell := default (u "unknown") (environ w !! u "SHELL") in
  let message := Plamo.not_found_msg shell (Plamo.path_list self) in
  let dialog := [u "osascript"; u "-e"; dialog_script message (u "エラー")] in
  subprocess_outcome w dialog = Ok r ->
  Plamo.run rt self input w s
  = (Ok false,
     {| now := now s + duration w (OpRun dialog);
        trace := trace s
                   ++ [EvRun dialog None (now s) (now s + duration w (OpRun dialog));
                       EvStderr (u "エラー: " ++ replace (u "\n") nl message)] |}).
Proof.
  intros Hne Hp shell message dialog Hd. destruct s as [t tr].
  destruct input as [|c input]; [contradiction|].
  unfold Plamo.run. cbn [nonempty negb].
  assert (Hf : Plamo.path_found self = false)
    by (unfold Plamo.path_found; destruct Hp as [-> | ->]; reflexivity).
  rewrite Hf. cbn [negb].
  unfold Plamo._show_plamo_not_found_error. run_steps.
  fold shell. fold message. rewrite show_dialog_cases. cbv zeta.
  fold dialog. rewrite Hd. cbn [after_run now trace].
  rewrite <- app_assoc. reflexivity.
Qed.

Lemma plamo_run_without_executable_witness :
  fst (Plamo.run Scenario.rt
         {| Plamo.program_start_time := 0; Plamo.plamo_path := None;
            Plamo.path_list := [u "/usr/bin"] |}
         (u "Hello") (Scenario.world_plamo (Scenario.completed 0 (u "Hi") []))
         (init_state 0))
  = Ok false.
Proof.
  rewrite (plamo_run_without_executable Scenario.rt _
             {| Plamo.program_start_time := 0; Plamo.plamo_path := None;
                Plamo.path_list := [u "/usr/bin"] |}
             (u "Hello") (init_state 0)
             {| returncode := 0; stdout := []; stderr := [] |});
    [reflexivity | vm_compute; discriminate | left; reflexivity
     | vm_compute; reflexivity].
Defined.

(** ** translation_benchmark.py: the timed calls *)

Section BenchmarkCalls.
Variable rt : PyRuntime.
Variable w : world.

(** [hosted_call] in normal form. *)
Lemma hosted_call_cases (payload : pyval) (cmd : pystr -> list pystr)
      (extract : pyval -> result (option pystr)) (t : Z) (tr : list event) :
  let t0 := t + duration w OpBuild in
  let t1 := t0 + duration w OpTempFile in
  let tr1 := tr ++ [EvTempFile payload t0 t1] in
  Benchmark.hosted_call rt payload cmd extract w {| now := t; trace := tr |}
  = match tempfile_outcome w with
    | Raise _ => (Ok (None, t1 - t0), {| now := t1; trace := tr1 |})
    | Ok p =>
      let t2 := t1 + duration w (OpRun (cmd p)) in
      let tr2 := (tr1 ++ [EvRun (cmd p) None t1 t2]) ++ [EvUnlink p] in
      let late := t2 + duration w OpParse + duration w OpUnlink in
      match subprocess_outcome w (cmd p) with
      | Raise _ =>
        (Ok (None, t2 + duration w OpUnlink - t0),
         {| now := t2 + duration w OpUnlink; trace := tr2 |})
      | Ok r =>
        if decide (returncode r <> 0) then
          (Ok (None, t2 - t0), {| now := t2 + duration w OpUnlink; trace := tr2 |})
        else
          match rbind (Benchmark.loads rt (stdout r)) extract with
          | Ok o => (Ok (o, t2 - t0), {| now := late; trace := tr2 |})
          | Raise _ => (Ok (None, late - t0), {| now := late; trace := tr2 |})
          end
      end
    end.
Proof.
  intros t0 t1 tr1. unfold Benchmark.hosted_call. run_monad. fold t0 t1 tr1.
  destruct (tempfile_outcome w) as [p|e]; [|reflexivity].
  destruct (subprocess_outcome w (cmd p)) as [r|e]; [|reflexivity].
  destruct (decide (returncode r <> 0)); [reflexivity|].
  run_monad. destruct (Benchmark.loads rt (stdout r)) as [v|e]; [|reflexivity].
  cbn [rbind]. destruct (extract v) as [o|e]; reflexivity.
Qed.

Lemma hosted_call_never_raises (payload : pyval) (cmd : pystr -> list pystr)
      (extract : pyval -> result (option pystr)) (s : state) :
  exists x, fst (Benchmark.hosted_call rt payload cmd extract w s) = Ok x.
Proof.
  destruct s as [t tr]. rewrite hosted_call_cases. cbv zeta.
  destruct (tempfile_outcome w) as [p|e]; [|eexists; reflexivity].
  destruct (subprocess_outcome w (cmd p)) as [r|e]; [|eexists; reflexivity].
  destruct (decide (returncode r <> 0)); [eexists; reflexivity|].
  destruct (rbind _ _); eexists; reflexivity.
Qed.

Lemma hosted_call_trace (payload : pyval) (cmd : pystr -> list pystr)
      (extract : pyval -> result (option pystr)) (s : state) (p : pystr) :
  tempfile_outcome w = Ok p ->
  let t0 := now s + duration w OpBuild in
  let t1 := t0 + duration w OpTempFile in
  let t2 := t1 + duration w (OpRun (cmd p)) in
  trace (snd (Benchmark.hosted_call rt payload cmd extract w s))
  = trace s ++ [EvTempFile payload t0 t1; EvRun (cmd p) None t1 t2; EvUnlink p].
Proof.
  intros Ht. destruct s as [t tr]. rewrite hosted_call_cases. cbv zeta.
  rewrite Ht. cbn [now trace].
  destruct (subprocess_outcome w (cmd p)) as [r|e];
    [destruct (decide (returncode r <> 0)); [|destruct (rbind _ _)]|];
    cbn [snd trace]; rewrite <- !app_assoc; reflexivity.
Qed.

Lemma hosted_call_text (payload : pyval) (cmd : pystr -> list pystr)
      (extract : pyval -> result (option pystr)) (s : state)
      (txt : pystr) (elapsed : Z) :
  fst (Benchmark.hosted_call rt payload cmd extract w s) = Ok (Some txt, elapsed) ->
  exists p r v,
    tempfile_outcome w = Ok p
    /\ subprocess_outcome w (cmd p) = Ok r
    /\ returncode r = 0
    /\ json_loads rt (stdout r) = Some v
    /\ extract v = Ok (Some txt)
    /\ elapsed = duration w OpTempFile + duration w (OpRun (cmd p)).
Proof.
  destruct s as [t tr]. rewrite hosted_call_cases. cbv zeta.
  destruct (tempfile_outcome w) as [p|e] eqn:Ht; [|discriminate].
  destruct (subprocess_outcome w (cmd p)) as [r|e] eqn:Ho; [|discriminate].
  destruct (decide (returncode r <> 0)) as [|Hrc]; [discriminate|].
  unfold Benchmark.loads.
  destruct (json_loads rt (stdout r)) as [v|] eqn:Hj; [|discriminate].
  cbn [rbind]. destruct (extract v) as [o|e] eqn:Hx; [|discriminate].
  cbn [fst]. intros [= -> <-]. exists p, r, v.
  split; [reflexivity|]. split; [exact Ho|].
  split; [destruct (decide (returncode r = 0)); [auto|contradiction]|].
  split; [exact Hj|]. split; [exact Hx|]. lia.
Qed.

End BenchmarkCalls.

(** X26.  The benchmark's two hosted calls never raise: every failure (no
    payload file, a timeout, a non-zero exit status, output that is not
    JSON, a response of an unexpected shape) comes back as a value. *)
Theorem benchmark_hosted_calls_never_raise
        (rt : PyRuntime) (w : world) (self : Benchmark.TranslationBenchmark)
        (text model : pystr) (s : state) :
  (exists x, fst (Benchmark._translate_openai rt self text model w s) = Ok x)
  /\ (exists x, fst (Benchmark._translate_gemini rt self text model w s) = Ok x).
Proof.
  unfold Benchmark._translate_openai, Benchmark._translate_gemini. split.
  - destruct (Benchmark.openai_key self) as [[|c k]|];
      [eexists; reflexivity | apply hosted_call_never_raises | eexists; reflexivity].
  - destruct (Benchmark.gemini_key self) as [[|c k]|];
      [eexists; reflexivity | apply hosted_call_never_raises | eexists; reflexivity].
Qed.

(** X27.  With a credential and a written payload file, a hosted call of the
    benchmark makes exactly one request (the Gemini call has no
    query-parameter fallback here) and removes the file, however the
    request ends. *)
Theorem benchmark_hosted_call_is_one_request
        (rt : PyRuntime) (w : world) (self : Benchmark.TranslationBenchmark)
        (text model : pystr) (s : state) (key p : pystr) :
  Benchmark.gemini_key self = Some key ->
  key <> [] ->
  tempfile_outcome w = Ok p ->
  let t0 := now s + duration w OpBuild in
  let t1 := t0 + duration w OpTempFile in
  let t2 := t1 + duration w (OpRun (Benchmark.gemini_curl_cmd key model p)) in
  trace (snd (Benchmark._translate_gemini rt self text model w s))
  = trace s ++ [EvTempFile (Benchmark.gemini_json_data text) t0 t1;
                EvRun (Benchmark.gemini_curl_cmd key model p) None t1 t2;
                EvUnlink p].
Proof.
  intros Hk Hne Ht. unfold Benchmark._translate_gemini. rewrite Hk.
  destruct key as [|c k]; [contradiction|].
  apply (hosted_call_trace rt w _ (Benchmark.gemini_curl_cmd (c :: k) model)).
  exact Ht.
Qed.

(** X28.  A text comes back from the benchmark's Gemini call only when the
    request exited with status zero, its output parsed, and the text was
    found on the result path; the elapsed time beside it covers writing
    the payload file and the request. *)
Theorem benchmark_gemini_text_comes_from_a_good_response
        (rt : PyRuntime) (w : world) (self : Benchmark.TranslationBenchmark)
        (text model : pystr) (s : state) (txt : pystr) (elapsed : Z) :
  fst (Benchmark._translate_gemini rt self text model w s) = Ok (Some txt, elapsed) ->
  exists key p r v,
    Benchmark.gemini_key self = Some key
    /\ tempfile_outcome w = Ok p
    /\ subprocess_outcome w (Benchmark.gemini_curl_cmd key model p) = Ok r
    /\ returncode r = 0
    /\ json_loads rt (stdout r) = Some v
    /\ Benchmark.gemini_extract rt v = Ok (Some txt)
    /\ elapsed = duration w OpTempFile
                 + duration w (OpRun (Benchmark.gemini_curl_cmd key model p)).
Proof.
  unfold Benchmark._translate_gemini.
  destruct (Benchmark.gemini_key self) as [[|c k]|]; [discriminate| |discriminate].
  intros H. apply hosted_call_text in H as (p & r & v & H1 & H2 & H3 & H4 & H5 & H6).
  exists (c :: k), p, r, v. auto 10.
Qed.

Lemma benchmark_hosted_call_is_one_request_witness :
  trace (snd (Benchmark._translate_gemini Scenario.rt Scenario.benchmark_session
                (u "Hello") Scenario.flash_lite
                (Scenario.world_header_ok (u "Invalid JSON")) (init_state 100)))
  = [EvTempFile (Benchmark.gemini_json_data (u "Hello")) 107 108;
     EvRun (Benchmark.gemini_curl_cmd Scenario.key Scenario.flash_lite Scenario.tmp)
           None 108 110;
     EvUnlink Scenario.tmp].
Proof.
  rewrite (benchmark_hosted_call_is_one_request Scenario.rt _
             Scenario.benchmark_session (u "Hello") Scenario.flash_lite
             (init_state 100) Scenario.key Scenario.tmp);
    [vm_compute; reflexivity | reflexivity | vm_compute; discriminate | reflexivity].
Defined.

Lemma benchmark_gemini_text_comes_from_a_good_response_witness :
  let w := Scenario.world_header_ok
             (Scenario.body_with_text (u "Translation result")) in
  exists key p r v,
    Benchmark.gemini_key Scenario.benchmark_session = Some key
    /\ tempfile_outcome w = Ok p
    /\ subprocess_outcome w (Benchmark.gemini_curl_cmd key Scenario.flash_lite p)
       = Ok r
    /\ returncode r = 0
    /\ json_loads Scenario.rt (stdout r) = Some v
    /\ Benchmark.gemini_extract Scenario.rt v = Ok (Some (u "Translation result"))
    /\ 3 = duration w OpTempFile
           + duration w (OpRun (Benchmark.gemini_curl_cmd key Scenario.flash_lite p)).
Proof.
  intros w.
  apply (benchmark_gemini_text_comes_from_a_good_response Scenario.rt w
           Scenario.benchmark_session (u "Hello") Scenario.flash_lite
           (init_state 100) (u "Translation result") 3).
  vm_compute. reflexivity.
Defined.

Section BenchmarkPlamo.
Variable rt : PyRuntime.
Variable w : world.

Lemma locate_plamo_never_raises (s : state) :
  exists o s1, Benchmark.locate_plamo w s = (Ok o, s1).
Proof.
  destruct s as [t tr]. unfold Benchmark.locate_plamo. run_monad.
  destruct (subprocess_outcome w _) as [r|e].
  - destruct (decide (returncode r = 0)).
    + destruct (strip (stdout r)) as [|c p]; eexists; eexists; reflexivity.
    + eexists; eexists; reflexivity.
  - eexists; eexists; reflexivity.
Qed.

End BenchmarkPlamo.

(** X29.  The benchmark's call of the local tool never raises either, and a
    text it returns is never empty. *)
Theorem benchmark_plamo_call_never_raises
        (w : world) (self : Benchmark.TranslationBenchmark) (text : pystr)
        (server_prestart : bool) (s : state) :
  exists o elapsed,
    fst (Benchmark._translate_plamo self text server_prestart w s) = Ok (o, elapsed)
    /\ o <> Some [].
Proof.
  unfold Benchmark._translate_plamo. unfold bind at 1.
  destruct (locate_plamo_never_raises w s) as (o & s1 & ->).
  destruct o as [[|c p]|]; [do 2 eexists; split; [reflexivity|discriminate] |
                           | do 2 eexists; split; [reflexivity|discriminate]].
  destruct s1 as [t1 tr1]. run_monad.
  destruct (subprocess_outcome w _) as [r|e];
    [|do 2 eexists; split; [reflexivity|discriminate]].
  destruct (decide (returncode r <> 0));
    [do 2 eexists; split; [reflexivity|discriminate]|].
  destruct (strip (stdout r)) as [|c1 out];
    do 2 eexists; (split; [reflexivity|discriminate]).
Qed.

(** ** translation_benchmark.py: the credential resolver *)

(** X30.  The benchmark's resolver reads the process environment whenever the
    shell gave nothing: the probe raised (anything), or it completed and
    printed only white space. *)
Theorem benchmark_resolver_reads_environment
        (w : world) (name : pystr) (s : state) :
  (forall r, subprocess_outcome w (key_probe w name) = Ok r ->
             strip (stdout r) = []) ->
  Benchmark._get_api_key name w s
  = (Ok (environ w !! name), after_run w (key_probe w name) s).
Proof.
  intros Hempty. rewrite benchmark_get_api_key_cases. cbv zeta.
  destruct (subprocess_outcome w (key_probe w name)) as [r|e]; [|reflexivity].
  rewrite (Hempty r eq_refl). reflexivity.
Qed.

Lemma benchmark_resolver_reads_environment_witness :
  fst (Benchmark._get_api_key (u "GEMINI_API_KEY")
         (Scenario.mk_world {[ u "GEMINI_API_KEY" := u "env-key" ]}
            (Scenario.completed 0 [] []) (Scenario.completed 0 [] [])
            (Raise (OtherException (u "PermissionError")))
            Scenario.durations [] [])
         (init_state 0))
  = Ok (Some (u "env-key")).
Proof.
  rewrite (benchmark_resolver_reads_environment _ (u "GEMINI_API_KEY") (init_state 0)).
  - vm_compute. reflexivity.
  - intros r Hr. vm_compute in Hr. discriminate Hr.
Defined.
